(** * directord gRPC driver: queue registries, broker service, client and driver

    A shallow embedding of [directord/drivers/grpcd.py].  The registries are
    Python dictionaries from target names to FIFO queues, reached through
    class-level singletons; the servicer's handlers, the client wrapper and
    the driver are written in a small state-and-exception monad whose state
    holds the server process, the logger output, the sleeps performed and the
    oracles (transport outcomes, random draws, generated ids).

    Calls run one after another here.  What two handlers of the worker pool
    do when they interleave (the queue operations run outside the registry
    lock) is not modelled: every statement below is about sequential runs.

    The numbers of the polling delay are binary64 floats, computed with the
    Standard Library's specification of IEEE 754 arithmetic ([SpecFloat]). *)

From Stdlib Require Import ZArith QArith Qminmax Lqa Ascii SpecFloat.
From stdpp Require Import gmap strings list fin_maps pretty.

Local Open Scope string_scope.
Local Open Scope list_scope.

(** ** Protobuf messages ([msg_pb2]) *)

(** Modelled from the spec: the generated module [msg_pb2] is not part of the
    sources at hand.  [MessageData] is the envelope, with the fields the
    spec's wire format lists and [put_message] passes to its constructor;
    every field is a protobuf string, so a field that was never set reads
    back as the empty string. *)
Record MessageData := mkMessageData {
  md_identity : string;
  md_msg_id : string;
  md_control : string;
  md_command : string;
  md_data : string;
  md_info : string;
  md_stderr : string;
  md_stdout : string;
}.

#[global] Instance MessageData_eq_dec : EqDecision MessageData.
Proof. solve_decision. Defined.

(** The constructor call [msg_pb2.MessageData(identity=..., ...)]: a keyword
    given as [None] leaves the field unset. *)
Definition new_MessageData
    (identity msg_id control command data info stderr stdout : option string)
    : MessageData :=
  {| md_identity := default "" identity;
     md_msg_id := default "" msg_id;
     md_control := default "" control;
     md_command := default "" command;
     md_data := default "" data;
     md_info := default "" info;
     md_stderr := default "" stderr;
     md_stdout := default "" stdout |}.

Definition empty_MessageData : MessageData :=
  new_MessageData None None None None None None None None.

(** Modelled from the spec: the requests and responses of [msg_pb2], each
    with the fields that the constructor calls of the servicer and the client
    name and that the spec's table of operations lists (a get answers with
    [status], [target] and [data], a put and a purge with [result], a check
    with [target] and [has_data]). *)
Inductive PbMessage :=
  | GetMessageRequest (target : string)
  | GetJobRequest (target : string)
  | PutMessageRequest (target : string) (data : MessageData)
  | PutJobRequest (target : string) (data : MessageData)
  | CheckRequest (target : string)
  | BasicRequest (verbose : bool)
  | MessageResponse (uuid : string) (status : bool) (target : string)
                    (data : option MessageData)
  | JobResponse (uuid : string) (status : bool) (target : string)
                (data : option MessageData)
  | Status (uuid : string) (result : bool)
  | CheckResponse (target : string) (has_data : bool).

(** Values a message attribute can hold. *)
Inductive PbValue :=
  | VStr (s : string)
  | VBool (b : bool)
  | VData (d : MessageData).

(** Attribute access [msg.name]; [None] is Python's [AttributeError].  A
    message-typed field that is unset reads as the empty message. *)
Definition pb_getattr (m : PbMessage) (name : string) : option PbValue :=
  match m with
  | GetMessageRequest t | GetJobRequest t | CheckRequest t =>
      if decide (name = "target") then Some (VStr t) else None
  | PutMessageRequest t d | PutJobRequest t d =>
      if decide (name = "target") then Some (VStr t)
      else if decide (name = "data") then Some (VData d) else None
  | BasicRequest v =>
      if decide (name = "verbose") then Some (VBool v) else None
  | MessageResponse u s t d | JobResponse u s t d =>
      if decide (name = "uuid") then Some (VStr u)
      else if decide (name = "status") then Some (VBool s)
      else if decide (name = "target") then Some (VStr t)
      else if decide (name = "data") then
        Some (VData (default empty_MessageData d))
      else None
  | Status u r =>
      if decide (name = "uuid") then Some (VStr u)
      else if decide (name = "result") then Some (VBool r) else None
  | CheckResponse t h =>
      if decide (name = "target") then Some (VStr t)
      else if decide (name = "has_data") then Some (VBool h) else None
  end.

(** ** QueueBase *)

(** One registry object: [_data_queue] maps a target to its queue, oldest
    element first. *)
Record QueueBase := mkQueueBase {
  _data_queue : gmap string (list MessageData);
}.

(** [_setup]. *)
Definition _setup : QueueBase := {| _data_queue := ∅ |}.

(** [add_queue(target, data)]: create the queue when the target is new, then
    [put] at the tail. *)
Definition add_queue (target : string) (data : MessageData) (self : QueueBase)
    : QueueBase :=
  let dq :=
    match _data_queue self !! target with
    | None => <[target := []]> (_data_queue self)
    | Some _ => _data_queue self
    end in
  match dq !! target with
  | Some q => {| _data_queue := <[target := q ++ [data]]> dq |}
  | None => {| _data_queue := dq |}
  end.

(** [get_from_queue(target)]: [None] for an unknown target or an empty queue,
    otherwise [Queue.get()] takes the head. *)
Definition get_from_queue (target : string) (self : QueueBase)
    : option MessageData * QueueBase :=
  match _data_queue self !! target with
  | None => (None, self)
  | Some [] => (None, self)
  | Some (x :: q) => (Some x, {| _data_queue := <[target := q]> (_data_queue self) |})
  end.

(** [check_queue(target)]. *)
Definition check_queue (target : string) (self : QueueBase) : bool :=
  match _data_queue self !! target with
  | None => false
  | Some q => negb (bool_decide (q = []))
  end.

(** [get_stats()]: the ["targets"] entry. *)
Definition get_stats (self : QueueBase) : gset string := dom (_data_queue self).

(** [purge_queue()]: a new empty dictionary replaces the old one. *)
Definition purge_queue (self : QueueBase) : bool * QueueBase :=
  (true, {| _data_queue := ∅ |}).

(** The envelopes waiting for a target, oldest first. *)
Definition queue_contents (self : QueueBase) (target : string) : list MessageData :=
  default [] (_data_queue self !! target).

(** ** The singletons

    [QueueBase._instance] is a class attribute; [MessageQueue] and [JobQueue]
    inherit it until [instance()] assigns their own.  An object is only ever
    stored in the attribute of the class [instance()] was called on, so an
    object is identified by the class whose attribute holds it. *)
Inductive QueueClass := QueueBaseClass | MessageQueue | JobQueue.

#[global] Instance QueueClass_eq_dec : EqDecision QueueClass.
Proof. solve_decision. Defined.

(** The server process: the [_instance] attribute each class owns ([None]:
    not assigned on that class). *)
Record Process := mkProcess {
  QueueBase_instance : option QueueBase;
  MessageQueue_instance : option QueueBase;
  JobQueue_instance : option QueueBase;
}.

Definition fresh_process : Process :=
  {| QueueBase_instance := None; MessageQueue_instance := None;
     JobQueue_instance := None |}.

Definition own_instance (cls : QueueClass) (p : Process) : option QueueBase :=
  match cls with
  | QueueBaseClass => QueueBase_instance p
  | MessageQueue => MessageQueue_instance p
  | JobQueue => JobQueue_instance p
  end.

Definition set_instance (cls : QueueClass) (q : QueueBase) (p : Process) : Process :=
  match cls with
  | QueueBaseClass =>
      {| QueueBase_instance := Some q;
         MessageQueue_instance := MessageQueue_instance p;
         JobQueue_instance := JobQueue_instance p |}
  | MessageQueue =>
      {| QueueBase_instance := QueueBase_instance p;
         MessageQueue_instance := Some q;
         JobQueue_instance := JobQueue_instance p |}
  | JobQueue =>
      {| QueueBase_instance := QueueBase_instance p;
         MessageQueue_instance := MessageQueue_instance p;
         JobQueue_instance := Some q |}
  end.

(** The class whose attribute the lookup [cls._instance] reads: the class
    itself when it owns one, else the base class. *)
Definition holder (cls : QueueClass) (p : Process) : QueueClass :=
  match own_instance cls p with
  | Some _ => cls
  | None =>
      match QueueBase_instance p with
      | Some _ => QueueBaseClass
      | None => cls
      end
  end.

(** [cls.instance()]: the object found through [cls._instance], or a new one
    assigned to [cls._instance]. *)
Definition instance (cls : QueueClass) (p : Process) : QueueBase :=
  default _setup (own_instance (holder cls p) p).

(** [cls.instance().method(...)]: the method runs on the shared object and its
    mutation is seen by every class that resolves to the same holder. *)
Definition on_instance {R} (cls : QueueClass) (method : QueueBase -> R * QueueBase)
    (p : Process) : R * Process :=
  let (r, q') := method (instance cls p) in
  (r, set_instance (holder cls p) q' p).

(** ** Effects *)

Inductive Level := DEBUG | INFO | WARNING | ERROR.

(** What [grpc.RpcError] exposes: [code().name], [code().value], [details()]. *)
Record RpcStatus := mkRpcStatus {
  code_name : string;
  code_value : Z * string;
  details : string;
}.

Inductive exn :=
  | RpcError (err : RpcStatus)
  | Exception (msg : string)
  | AttributeError (msg : string)
  | OverflowError
  | ValueError.

Inductive LogArg :=
  | AStr (s : string)
  | ACode (v : Z * string)
  | AMsg (m : PbMessage)
  | AExn (e : exn).

Record LogRecord := mkLog {
  log_level : Level;
  log_msg : string;
  log_args : list LogArg;
}.

(** The state threaded through every call. *)
Record World := mkWorld {
  w_proc : Process;                    (* the server process *)
  w_log : list LogRecord;              (* logger output, oldest first *)
  w_sleeps : list spec_float;          (* sleeps [time.sleep] made, oldest first *)
  w_closed : list string;              (* channels closed, oldest first *)
  w_net : list (option RpcStatus);     (* outcomes of the next stub calls;
                                          [None] or no entry: delivered *)
  w_rand : list Z;                     (* raw draws of the random generator *)
  w_uuids : nat -> string;             (* the ids [utils.get_uuid] yields *)
  w_uuid_next : nat;                   (* how many were drawn *)
}.

Inductive outcome (A : Type) :=
  | Return (a : A)
  | Raise (e : exn).
Arguments Return {A} a.
Arguments Raise {A} e.

Definition M (A : Type) : Type := World -> outcome A * World.

Definition ret {A} (a : A) : M A := fun w => (Return a, w).

Definition bind {A B} (m : M A) (k : A -> M B) : M B :=
  fun w =>
    match m w with
    | (Return a, w') => k a w'
    | (Raise e, w') => (Raise e, w')
    end.

Definition raise {A} (e : exn) : M A := fun w => (Raise e, w).

(** [try: body except ...: handler]; [handler e = None] when no clause
    matches [e]. *)
Definition try_except {A} (body : M A) (handler : exn -> option (M A)) : M A :=
  fun w =>
    match body w with
    | (Return a, w') => (Return a, w')
    | (Raise e, w') =>
        match handler e with
        | Some h => h w'
        | None => (Raise e, w')
        end
    end.

Declare Scope py_scope.
Delimit Scope py_scope with py.
Notation "x <- m ;; k" := (bind m (fun x => k))
  (at level 100, m at next level, right associativity) : py_scope.
Notation "m ;;; k" := (bind m (fun _ => k))
  (at level 100, right associativity) : py_scope.
Local Open Scope py_scope.

Definition set_proc (p : Process) (w : World) : World :=
  {| w_proc := p; w_log := w_log w; w_sleeps := w_sleeps w;
     w_closed := w_closed w; w_net := w_net w; w_rand := w_rand w;
     w_uuids := w_uuids w; w_uuid_next := w_uuid_next w |}.

Definition set_log (l : list LogRecord) (w : World) : World :=
  {| w_proc := w_proc w; w_log := l; w_sleeps := w_sleeps w;
     w_closed := w_closed w; w_net := w_net w; w_rand := w_rand w;
     w_uuids := w_uuids w; w_uuid_next := w_uuid_next w |}.

(** The world once the transport has settled the outcome of one stub call. *)
Definition pop_net (w : World) : World :=
  {| w_proc := w_proc w; w_log := w_log w; w_sleeps := w_sleeps w;
     w_closed := w_closed w; w_net := tl (w_net w); w_rand := w_rand w;
     w_uuids := w_uuids w; w_uuid_next := w_uuid_next w |}.

Definition log (lvl : Level) (msg : string) (args : list LogArg) : M unit :=
  fun w =>
    (Return tt,
     {| w_proc := w_proc w; w_log := w_log w ++ [mkLog lvl msg args];
        w_sleeps := w_sleeps w; w_closed := w_closed w; w_net := w_net w;
        w_rand := w_rand w; w_uuids := w_uuids w;
        w_uuid_next := w_uuid_next w |}).

(** ** Numbers

    Binary64 floats are [spec_float] values with the operations of
    [SpecFloat] at precision 53 and maximal exponent 1024 (round to nearest,
    ties to even). *)
Definition prec : Z := 53.
Definition emax : Z := 1024.

Definition fmul (x y : spec_float) : spec_float := SFmul prec emax x y.
Definition fadd (x y : spec_float) : spec_float := SFadd prec emax x y.
Definition fdiv (x y : spec_float) : spec_float := SFdiv prec emax x y.

(** The float nearest to an integer. *)
Definition nearest_float (z : Z) : spec_float :=
  binary_normalize prec emax z 0 false.

(** The float a decimal literal denotes: the one nearest to [num / den]. *)
Definition literal (num den : Z) : spec_float :=
  fdiv (nearest_float num) (nearest_float den).

Definition is_nan (f : spec_float) : bool :=
  match f with S754_nan => true | _ => false end.

Definition is_infinity (f : spec_float) : bool :=
  match f with S754_infinity _ => true | _ => false end.

(** A Python number is an [int] or a [float].  In [int * float] the integer
    becomes the nearest float, and one beyond the range of the floats raises
    [OverflowError]. *)
Inductive PyNumber :=
  | PyInt (z : Z)
  | PyFloat (f : spec_float).

Definition to_float (n : PyNumber) : outcome spec_float :=
  match n with
  | PyInt z =>
      let f := nearest_float z in
      if is_infinity f then Raise OverflowError else Return f
  | PyFloat f => Return f
  end.

(** [max(a, b)] on two floats: [b] when [b > a], else [a]. *)
Definition py_max (a b : spec_float) : spec_float :=
  if SFltb a b then b else a.

(** What [time.sleep(t)] refuses: a NaN, a length whose nanoseconds do not
    fit a signed 64-bit integer, a negative length. *)
Definition sleep_error (t : spec_float) : option exn :=
  if is_nan t then Some ValueError
  else
    let d := fmul t (nearest_float 1000000000) in
    if negb (SFleb (nearest_float (- 2 ^ 63)) d && SFltb d (nearest_float (2 ^ 63)))
    then Some OverflowError
    else if SFltb d (nearest_float 0) then Some ValueError
    else None.

(** [time.sleep(t)]. *)
Definition sleep (t : spec_float) : M unit :=
  fun w =>
    match sleep_error t with
    | Some e => (Raise e, w)
    | None =>
        (Return tt,
         {| w_proc := w_proc w; w_log := w_log w;
            w_sleeps := w_sleeps w ++ [t]; w_closed := w_closed w;
            w_net := w_net w; w_rand := w_rand w; w_uuids := w_uuids w;
            w_uuid_next := w_uuid_next w |})
    end.

(** [random.randrange(start, stop)] for [start < stop]: some integer of
    [start .. stop - 1], here fixed by the next raw draw. *)
Definition randrange (start stop : Z) : M Z :=
  fun w =>
    (Return (start + (hd 0%Z (w_rand w)) `mod` (stop - start))%Z,
     {| w_proc := w_proc w; w_log := w_log w; w_sleeps := w_sleeps w;
        w_closed := w_closed w; w_net := w_net w; w_rand := tl (w_rand w);
        w_uuids := w_uuids w; w_uuid_next := w_uuid_next w |}).

(** Modelled from the spec: [utils.get_uuid] is not part of the sources at
    hand; the spec has the heartbeat "construct a correlation id".  Each call
    yields the next id of the generator. *)
Definition get_uuid : M string :=
  fun w =>
    (Return (w_uuids w (w_uuid_next w)),
     {| w_proc := w_proc w; w_log := w_log w; w_sleeps := w_sleeps w;
        w_closed := w_closed w; w_net := w_net w; w_rand := w_rand w;
        w_uuids := w_uuids w; w_uuid_next := S (w_uuid_next w) |}).

(** A method call on a singleton, inside the monad. *)
Definition call {R} (cls : QueueClass) (method : QueueBase -> R * QueueBase) : M R :=
  fun w =>
    let (r, p') := on_instance cls method (w_proc w) in
    (Return r, set_proc p' w).

(** Reading a message attribute; an attribute the message type does not have
    raises [AttributeError]. *)
Definition attr_str (m : PbMessage) (name : string) : M string :=
  match pb_getattr m name with
  | Some (VStr s) => ret s
  | _ => raise (AttributeError name)
  end.

Definition attr_bool (m : PbMessage) (name : string) : M bool :=
  match pb_getattr m name with
  | Some (VBool b) => ret b
  | _ => raise (AttributeError name)
  end.

Definition attr_data (m : PbMessage) (name : string) : M MessageData :=
  match pb_getattr m name with
  | Some (VData d) => ret d
  | _ => raise (AttributeError name)
  end.

(** Python truth of [get_from_queue]'s result: [None] is false; the truth of
    a [MessageData] object is decided by the generated class, which is not
    part of the sources at hand, and is taken as the parameter [truthy]. *)
Definition py_truth (truthy : MessageData -> bool) (o : option MessageData) : bool :=
  match o with
  | None => false
  | Some d => truthy d
  end.

(** ** MessageServiceServicer *)
Module MessageServiceServicer.

Definition GetMessage (truthy : MessageData -> bool) (request : PbMessage)
    : M PbMessage :=
  target <- attr_str request "target" ;;
  log DEBUG "-> GetMessage Request: %s" [AMsg request] ;;;
  job_data <- call MessageQueue (get_from_queue target) ;;
  r <- (if negb (py_truth truthy job_data)
        then (log DEBUG "! No messages for %s" [AStr target] ;;;
              ret (false, None))
        else ret (true, job_data)) ;;
  let response := MessageResponse "uuid!" (fst r) target (snd r) in
  log DEBUG "<- GetMessage Response: %s" [AMsg response] ;;;
  ret response.

Definition GetJob (truthy : MessageData -> bool) (request : PbMessage)
    : M PbMessage :=
  target <- attr_str request "target" ;;
  log DEBUG "-> GetJob Request: %s" [AMsg request] ;;;
  job_data <- call JobQueue (get_from_queue target) ;;
  r <- (if negb (py_truth truthy job_data)
        then (log DEBUG "! No jobs for %s" [AStr target] ;;;
              ret (false, None))
        else ret (true, job_data)) ;;
  let response := JobResponse "uuid!" (fst r) target (snd r) in
  log DEBUG "<- GetJob Response: %s" [AMsg response] ;;;
  ret response.

Definition PutMessage (request : PbMessage) : M PbMessage :=
  target <- attr_str request "target" ;;
  msg <- attr_data request "data" ;;
  log DEBUG "-> PutMessage Request: %s" [AMsg request] ;;;
  call MessageQueue (fun q => (tt, add_queue target msg q)) ;;;
  log DEBUG "+ We added message to queue (%s)" [AStr target] ;;;
  let status := Status "uuid!" true in
  log DEBUG "<- PutMessage Response: %s" [AMsg status] ;;;
  ret status.

Definition PutJob (request : PbMessage) : M PbMessage :=
  target <- attr_str request "target" ;;
  msg <- attr_data request "data" ;;
  log DEBUG "-> PutJob Request: %s" [AMsg request] ;;;
  call JobQueue (fun q => (tt, add_queue target msg q)) ;;;
  log DEBUG "+ We added job to queue (%s)" [AStr target] ;;;
  let status := Status "uuid!" true in
  log DEBUG "<- PutJob Response: %s" [AMsg status] ;;;
  ret status.

Definition MessageCheck (request : PbMessage) : M PbMessage :=
  target <- attr_str request "target" ;;
  log DEBUG "-> Message Check: %s" [AStr target] ;;;
  has_data <- call MessageQueue (fun q => (check_queue target q, q)) ;;
  ret (CheckResponse target has_data).

Definition JobCheck (request : PbMessage) : M PbMessage :=
  target <- attr_str request "target" ;;
  log DEBUG "-> Job Check: %s" [AStr target] ;;;
  has_data <- call JobQueue (fun q => (check_queue target q, q)) ;;
  ret (CheckResponse target has_data).

Definition PurgeQueues (request : PbMessage) : M PbMessage :=
  log WARNING "Purging message and job queues." [] ;;;
  call MessageQueue purge_queue ;;;
  call JobQueue purge_queue ;;;
  ret (Status "uuid!" true).

End MessageServiceServicer.

(** A call through the stub: the transport either fails with an
    [RpcError] or delivers the request to the handler and the response back. *)
Definition rpc (handler : PbMessage -> M PbMessage) (request : PbMessage)
    : M PbMessage :=
  fun w =>
    match hd None (w_net w) with
    | Some err => (Raise (RpcError err), pop_net w)
    | None => handler request (pop_net w)
    end.

(** The two [log.error] calls every [except grpc.RpcError] clause makes. *)
Definition log_rpc_error (method : string) (err : RpcStatus) : M unit :=
  log ERROR (method +:+ ": %s, %s, %s")
      [AStr (code_name err); ACode (code_value err); AStr (details err)] ;;;
  log ERROR "%s" [AExn (RpcError err)].

(** What the [except grpc.RpcError] clauses add to the log. *)
Definition rpc_error_records (method : string) (err : RpcStatus) : list LogRecord :=
  [mkLog ERROR (method +:+ ": %s, %s, %s")
     [AStr (code_name err); ACode (code_value err); AStr (details err)];
   mkLog ERROR "%s" [AExn (RpcError err)]].

(** ** MessageServiceClient *)
Module MessageServiceClient.

(** The client object.  [channel] and [stub] hold the address the channel was
    opened to, or [None]. *)
Record t := mk {
  server_address : string;
  server_port : Z;
  secure : bool;
  channel : option string;
  stub : option string;
}.

(** The object once [__init__] has returned, that is once [connect] has
    seen the channel become ready. *)
Definition connected (address : string) (port : Z) (sec : bool) : t :=
  let target := address +:+ ":" +:+ pretty port in
  {| server_address := address; server_port := port; secure := sec;
     channel := Some target; stub := Some target |}.

(** [close()]. *)
Definition close (self : t) : M t :=
  fun w =>
    let w' :=
      match channel self with
      | Some c =>
          {| w_proc := w_proc w; w_log := w_log w; w_sleeps := w_sleeps w;
             w_closed := w_closed w ++ [c]; w_net := w_net w;
             w_rand := w_rand w; w_uuids := w_uuids w;
             w_uuid_next := w_uuid_next w |}
      | None => w
      end in
    (Return {| server_address := server_address self;
               server_port := server_port self; secure := secure self;
               channel := None; stub := None |}, w').

(** [if not self.stub: raise Exception(msg)]. *)
Definition require_stub (self : t) (msg : string) : M unit :=
  match stub self with
  | None => raise (Exception msg)
  | Some _ => ret tt
  end.

Definition get_message (truthy : MessageData -> bool) (self : t)
    (target : string) : M (string * option MessageData) :=
  require_stub self "Message request after close" ;;;
  let request := GetMessageRequest target in
  try_except
    (response <- rpc (MessageServiceServicer.GetMessage truthy) request ;;
     log DEBUG "get_message: Request OK." [] ;;;
     status <- attr_bool response "status" ;;
     if status
     then (log DEBUG "get_message: Message fetched." [] ;;;
           rt <- attr_str response "target" ;;
           rd <- attr_data response "data" ;;
           ret (rt, Some rd))
     else (log DEBUG "get_message: No message found." [] ;;;
           ret (target, None)))
    (fun e =>
       match e with
       | RpcError err => Some (log_rpc_error "get_message" err ;;; raise e)
       | _ => None
       end).

Definition get_job (truthy : MessageData -> bool) (self : t)
    (target : string) : M (string * option MessageData) :=
  require_stub self "Job request after close" ;;;
  let request := GetJobRequest target in
  try_except
    (response <- rpc (MessageServiceServicer.GetJob truthy) request ;;
     log DEBUG "get_job: Request OK." [] ;;;
     status <- attr_bool response "status" ;;
     if status
     then (log DEBUG "get_job: Job fetched." [] ;;;
           rt <- attr_str response "target" ;;
           rd <- attr_data response "data" ;;
           ret (rt, Some rd))
     else (log DEBUG "get_job: No job found." [] ;;;
           ret (target, None)))
    (fun e =>
       match e with
       | RpcError err => Some (log_rpc_error "get_job" err ;;; raise e)
       | _ => None
       end).

(** [target] may be [None], which leaves the request's field unset. *)
Definition put_message (self : t) (target : option string)
    (identity msg_id control command data info stderr stdout : option string)
    : M bool :=
  require_stub self "Message request after close" ;;;
  let message :=
    new_MessageData identity msg_id control command data info stderr stdout in
  let request := PutMessageRequest (default "" target) message in
  log DEBUG "put_message: request %s" [AMsg request] ;;;
  try_except
    (response <- rpc MessageServiceServicer.PutMessage request ;;
     log DEBUG "put_message: Message submitted" [] ;;;
     attr_bool response "result")
    (fun e =>
       match e with
       | RpcError err => Some (log_rpc_error "put_message" err ;;; ret false)
       | _ => None
       end).

Definition put_job (self : t) (target : option string)
    (identity msg_id control command data info stderr stdout : option string)
    : M bool :=
  require_stub self "Job request after close" ;;;
  let job :=
    new_MessageData identity msg_id control command data info stderr stdout in
  let request := PutJobRequest (default "" target) job in
  log DEBUG "put_job: request %s" [AMsg request] ;;;
  try_except
    (response <- rpc MessageServiceServicer.PutJob request ;;
     log DEBUG "put_job: Job submitted" [] ;;;
     attr_bool response "result")
    (fun e =>
       match e with
       | RpcError err => Some (log_rpc_error "put_job" err ;;; ret false)
       | _ => None
       end).

Definition message_check (self : t) (target : string) : M bool :=
  require_stub self "Job request after close" ;;;
  let request := CheckRequest target in
  try_except
    (response <- rpc MessageServiceServicer.MessageCheck request ;;
     attr_bool response "has_data")
    (fun e =>
       match e with
       | RpcError err => Some (log_rpc_error "message_check" err ;;; ret false)
       | _ => None
       end).

Definition job_check (self : t) (target : string) : M bool :=
  require_stub self "Job request after close" ;;;
  let request := CheckRequest target in
  try_except
    (response <- rpc MessageServiceServicer.JobCheck request ;;
     attr_bool response "has_data")
    (fun e =>
       match e with
       | RpcError err => Some (log_rpc_error "job_check" err ;;; ret false)
       | _ => None
       end).

Definition purge_queues (self : t) : M bool :=
  require_stub self "Message request after close" ;;;
  let request := BasicRequest false in
  try_except
    (response <- rpc MessageServiceServicer.PurgeQueues request ;;
     log WARNING "Queue purged" [] ;;;
     attr_bool response "status")
    (fun e =>
       match e with
       | RpcError err => Some (log_rpc_error "purge_queue" err ;;; raise e)
       | _ => None
       end).

End MessageServiceClient.

(** ** [json.dumps]

    The values the heartbeat serializes.  Characters are code points below
    256; [json.dumps] runs with its defaults ([ensure_ascii], separators
    [", "] and [": "]). *)
#[local] Unset Elimination Schemes.
Inductive Json :=
  | JNull
  | JBool (b : bool)
  | JInt (z : Z)
  | JStr (s : string)
  | JList (l : list Json)
  | JObj (l : list (string * Json)).
#[local] Set Elimination Schemes.

Definition hex_digit (n : N) : ascii :=
  default "0"%char (String.get (N.to_nat n) "0123456789abcdef").

(** One character of a string literal: the two-character escapes, [\u00xx]
    for everything else outside [' ' .. '~'], the character itself inside. *)
Definition escape_char (c : ascii) : string :=
  let n := N_of_ascii c in
  if (n =? 34)%N then String "\"%char (String "034"%char EmptyString)
  else if (n =? 92)%N then "\\"
  else if (n =? 8)%N then "\b"
  else if (n =? 12)%N then "\f"
  else if (n =? 10)%N then "\n"
  else if (n =? 13)%N then "\r"
  else if (n =? 9)%N then "\t"
  else if ((32 <=? n) && (n <=? 126))%N then String c EmptyString
  else "\u00" +:+ String (hex_digit (n / 16)) (String (hex_digit (n mod 16)) EmptyString).

Fixpoint escape (s : string) : string :=
  match s with
  | EmptyString => EmptyString
  | String c r => escape_char c +:+ escape r
  end.

Definition quoted (s : string) : string :=
  String "034"%char (escape s +:+ String "034"%char EmptyString).

Fixpoint dumps (j : Json) : string :=
  match j with
  | JNull => "null"
  | JBool true => "true"
  | JBool false => "false"
  | JInt z => pretty z
  | JStr s => quoted s
  | JList l =>
      "[" +:+
      (fix items (l : list Json) : string :=
         match l with
         | [] => ""
         | x :: r =>
             match r with
             | [] => dumps x
             | _ :: _ => dumps x +:+ ", " +:+ items r
             end
         end) l +:+ "]"
  | JObj l =>
      "{" +:+
      (fix members (l : list (string * Json)) : string :=
         match l with
         | [] => ""
         | (k, v) :: r =>
             match r with
             | [] => quoted k +:+ ": " +:+ dumps v
             | _ :: _ => quoted k +:+ ": " +:+ dumps v +:+ ", " +:+ members r
             end
         end) l +:+ "}"
  end.

(** ** Driver *)
Module Driver.

(** The attributes the methods below read or write.  [identity],
    [heartbeat_notice] and [machine_id] are set by [drivers.BaseDriver]. *)
Record t := mk {
  identity : string;
  mode : option string;
  _client : option MessageServiceClient.t;
  timeout : option spec_float;
  heartbeat_notice : string;
  machine_id : Json;
}.

Definition _server_identity : string := "DIRECTORD_SERVER".

Definition set_timeout (self : t) (x : spec_float) : t :=
  {| identity := identity self; mode := mode self; _client := _client self;
     timeout := Some x; heartbeat_notice := heartbeat_notice self;
     machine_id := machine_id self |}.

(** [self._client.<method>]: on [None] the attribute lookup fails. *)
Definition client_method (self : t) (method : string) : M MessageServiceClient.t :=
  match _client self with
  | Some c => ret c
  | None => raise (AttributeError method)
  end.

(** Keyword arguments: a key maps to the value passed, which may be [None]. *)
Definition kwargs_get (kwargs : gmap string (option string)) (key : string)
    : option string :=
  default None (kwargs !! key).

Definition kwargs_get_default (kwargs : gmap string (option string))
    (key : string) (dflt : option string) : option string :=
  default dflt (kwargs !! key).

(** [max(interval * (constant * 0.001), 0.2)]: the right factor is computed
    first, each integer operand is converted as it meets a float. *)
Definition poll_base (interval constant : PyNumber) : outcome spec_float :=
  match to_float constant with
  | Raise e => Raise e
  | Return c =>
      let scaled := fmul c (literal 1 1000) in
      match to_float interval with
      | Raise e => Raise e
      | Return i => Return (py_max (fmul i scaled) (literal 2 10))
      end
  end.

(** [r / 10000] for the integer [r] that [randrange(0, 1000)] returned. *)
Definition jitter (r : Z) : spec_float :=
  fdiv (nearest_float r) (nearest_float 10000).

(** The rest of a poll once the client's check has answered [False]: the
    timeout is computed, assigned to [self.timeout] and slept.  The driver
    object is handed back on both outcomes, since [time.sleep] raises after
    the assignment. *)
Definition poll_sleep (self : t) (interval constant : PyNumber) (w : World)
    : (outcome bool * t) * World :=
  match poll_base interval constant with
  | Raise e => ((Raise e, self), w)
  | Return base =>
      match randrange 0 1000 w with
      | (Raise e, w1) => ((Raise e, self), w1)
      | (Return r, w1) =>
          let timeout := fadd base (jitter r) in
          let self' := set_timeout self timeout in
          match sleep timeout w1 with
          | (Raise e, w2) => ((Raise e, self'), w2)
          | (Return _, w2) => ((Return false, self'), w2)
          end
      end
  end.

Definition backend_check (self : t) (interval constant : PyNumber) (w : World)
    : (outcome bool * t) * World :=
  match (c <- client_method self "message_check" ;;
         MessageServiceClient.message_check c (identity self)) w with
  | (Raise e, w1) => ((Raise e, self), w1)
  | (Return true, w1) => ((Return true, self), w1)
  | (Return false, w1) => poll_sleep self interval constant w1
  end.

Definition backend_send (self : t) (kwargs : gmap string (option string))
    : M bool :=
  let identity := kwargs_get_default kwargs "identity" (Some (identity self)) in
  let target :=
    kwargs_get_default kwargs "target"
      (kwargs_get_default kwargs "identity" (Some _server_identity)) in
  try_except
    (c <- client_method self "put_message" ;;
     MessageServiceClient.put_message c target identity
       (kwargs_get kwargs "msg_id") (kwargs_get kwargs "control")
       (kwargs_get kwargs "command") (kwargs_get kwargs "data")
       (kwargs_get kwargs "info") (kwargs_get kwargs "stderr")
       (kwargs_get kwargs "stdout") ;;;
     ret tt)
    (fun e => Some (log ERROR "Error putting message, %s" [AExn e] ;;; raise e)) ;;;
  ret true.

Definition job_send (self : t) (kwargs : gmap string (option string))
    : M bool :=
  let identity := kwargs_get_default kwargs "identity" (Some (identity self)) in
  let target :=
    kwargs_get_default kwargs "target"
      (kwargs_get_default kwargs "identity" (Some _server_identity)) in
  try_except
    (c <- client_method self "put_job" ;;
     MessageServiceClient.put_job c target identity
       (kwargs_get kwargs "msg_id") (kwargs_get kwargs "control")
       (kwargs_get kwargs "command") (kwargs_get kwargs "data")
       (kwargs_get kwargs "info") (kwargs_get kwargs "stderr")
       (kwargs_get kwargs "stdout") ;;;
     ret tt)
    (fun e => Some (log ERROR "Error putting message, %s" [AExn e] ;;; raise e)) ;;;
  ret true.

(** The dictionary [heartbeat_send] hands to [json.dumps]. *)
Definition heartbeat_payload (self : t) (job_id : string)
    (host_uptime agent_uptime version driver : Json) : Json :=
  JObj [("job_id", JStr job_id);
        ("version", version);
        ("host_uptime", host_uptime);
        ("agent_uptime", agent_uptime);
        ("machine_id", machine_id self);
        ("driver", driver)].

Definition heartbeat_send (self : t)
    (host_uptime agent_uptime version driver : Json) : M bool :=
  job_id <- get_uuid ;;
  log INFO "Job [ %s ] sending heartbeat from [ %s ] to server"
      [AStr job_id; AStr (identity self)] ;;;
  job_send self
    (<["target" := Some _server_identity]>
     (<["identity" := Some (identity self)]>
      (<["control" := Some (heartbeat_notice self)]>
       (<["msg_id" := Some job_id]>
        (<["data" :=
             Some (dumps (heartbeat_payload self job_id host_uptime
                            agent_uptime version driver))]> ∅))))).

Definition job_check (self : t) (interval constant : PyNumber) (w : World)
    : (outcome bool * t) * World :=
  match (c <- client_method self "job_check" ;;
         MessageServiceClient.job_check c (identity self)) w with
  | (Raise e, w1) => ((Raise e, self), w1)
  | (Return true, w1) => ((Return true, self), w1)
  | (Return false, w1) => poll_sleep self interval constant w1
  end.

End Driver.

(** ** The service as a whole

    [add_MessageServiceServicer_to_server] routes each incoming call to the
    handler of its name; a run of the server is a sequence of such calls. *)
Inductive Call :=
  | CallGetMessage (target : string)
  | CallGetJob (target : string)
  | CallPutMessage (target : string) (data : MessageData)
  | CallPutJob (target : string) (data : MessageData)
  | CallMessageCheck (target : string)
  | CallJobCheck (target : string)
  | CallPurgeQueues.

Definition serve (truthy : MessageData -> bool) (c : Call) : M PbMessage :=
  match c with
  | CallGetMessage t => MessageServiceServicer.GetMessage truthy (GetMessageRequest t)
  | CallGetJob t => MessageServiceServicer.GetJob truthy (GetJobRequest t)
  | CallPutMessage t d => MessageServiceServicer.PutMessage (PutMessageRequest t d)
  | CallPutJob t d => MessageServiceServicer.PutJob (PutJobRequest t d)
  | CallMessageCheck t => MessageServiceServicer.MessageCheck (CheckRequest t)
  | CallJobCheck t => MessageServiceServicer.JobCheck (CheckRequest t)
  | CallPurgeQueues => MessageServiceServicer.PurgeQueues (BasicRequest false)
  end.

Fixpoint serve_all (truthy : MessageData -> bool) (cs : list Call) (w : World)
    : World :=
  match cs with
  | [] => w
  | c :: rest => serve_all truthy rest (snd (serve truthy c w))
  end.

(** The states a server process goes through: it starts with no singleton
    and only the handlers touch the registries. *)
Definition served (p : Process) : Prop :=
  exists truthy cs w,
    w_proc w = fresh_process /\ p = w_proc (serve_all truthy cs w).

(** The two registries, as a handler finds them. *)
Definition message_registry (w : World) : QueueBase := instance MessageQueue (w_proc w).
Definition job_registry (w : World) : QueueBase := instance JobQueue (w_proc w).

(** The envelope a heartbeat carries. *)
Definition heartbeat_envelope (self : Driver.t) (job_id : string)
    (host_uptime agent_uptime version driver : Json) : MessageData :=
  {| md_identity := Driver.identity self;
     md_msg_id := job_id;
     md_control := Driver.heartbeat_notice self;
     md_command := "";
     md_data := dumps (Driver.heartbeat_payload self job_id host_uptime
                         agent_uptime version driver);
     md_info := ""; md_stderr := ""; md_stdout := "" |}.

(** A world with nothing in it: fresh server, no failure scheduled. *)
Definition quiet_world (uuids : nat -> string) (rand : list Z) : World :=
  {| w_proc := fresh_process; w_log := []; w_sleeps := []; w_closed := [];
     w_net := []; w_rand := rand; w_uuids := uuids; w_uuid_next := 0 |}.

(** The same world with the next stub call failing with [err]. *)
Definition failing_world (uuids : nat -> string) (rand : list Z)
    (err : RpcStatus) : World :=
  {| w_proc := fresh_process; w_log := []; w_sleeps := []; w_closed := [];
     w_net := [Some err]; w_rand := rand; w_uuids := uuids; w_uuid_next := 0 |}.

Definition unavailable : RpcStatus :=
  {| code_name := "UNAVAILABLE"; code_value := (14%Z, "unavailable");
     details := "failed to connect to all addresses" |}.

Definition sample_uuids (n : nat) : string := "job-" +:+ pretty n.

(** An agent's driver once [backend_init] has connected it. *)
Definition agent_driver : Driver.t :=
  {| Driver.identity := "agent-1"; Driver.mode := Some "client";
     Driver._client := Some (MessageServiceClient.connected "127.0.0.1" 5558 false);
     Driver.timeout := None; Driver.heartbeat_notice := "heartbeat";
     Driver.machine_id := JStr "machine-1" |}.

(** A call that reports "no data" for [target]: it returns the pair of the
    target and an absent envelope. *)
Definition reports_no_data (run : M (string * option MessageData))
    (target : string) (w : World) : Prop :=
  exists w', run w = (Return (target, None), w').

(** A call that puts [envelope] last in the queue of [target] of the registry
    of class [cls]. *)
Definition enqueues (cls : QueueClass) (target : string) (envelope : MessageData)
    {A} (run : M A) (w : World) : Prop :=
  queue_contents (instance cls (w_proc (snd (run w)))) target
  = queue_contents (instance cls (w_proc w)) target ++ [envelope].

(** What a poll does after the client's check answered [has]: nothing more
    when data is there.  Otherwise, unless an integer argument is too large
    for a float, it draws [r] of 0..999, computes in binary64
    [max(interval * (constant * 0.001), 0.2) + r / 10000], stores that in
    [self.timeout], and sleeps for it and returns [False], or raises what
    [time.sleep] raises for a length it refuses. *)
Definition polled (self : Driver.t) (interval constant : PyNumber) (has : bool)
    (w1 : World) (result : (outcome bool * Driver.t) * World) : Prop :=
  if has then result = ((Return true, self), w1)
  else
    match to_float constant, to_float interval with
    | Return c, Return i =>
        exists (r : Z) (w2 : World),
          (0 <= r < 1000)%Z /\
          let jitter := fdiv (nearest_float r) (nearest_float 10000) in
          let base := fmul i (fmul c (literal 1 1000)) in
          let t :=
            fadd (if SFltb base (literal 2 10) then literal 2 10 else base) jitter in
          SFleb (nearest_float 0) jitter = true /\
          SFltb jitter (literal 1 10) = true /\
          match sleep_error t with
          | None =>
              result = ((Return false, Driver.set_timeout self t), w2) /\
              w_sleeps w2 = w_sleeps w1 ++ [t]
          | Some e =>
              result = ((Raise e, Driver.set_timeout self t), w2) /\
              w_sleeps w2 = w_sleeps w1
          end
    | _, _ => result = ((Raise OverflowError, self), w1)
    end.



(** The truth value of a [MessageData] object: the generated protobuf class
    defines neither [__bool__] nor [__len__], so every message, the empty one
    included, is true. *)
Definition message_truth (d : MessageData) : bool := true.

(** A [GetMessage] that takes the envelope at the head of the target's queue
    and answers as if there had been none. *)
Definition discards_envelope (truthy : MessageData -> bool) (target : string)
    (w : World) : Prop :=
  exists (x : MessageData) (rest : list MessageData) (w' : World),
    queue_contents (message_registry w) target = x :: rest /\
    MessageServiceServicer.GetMessage truthy (GetMessageRequest target) w
    = (Return (MessageResponse "uuid!" false target None), w') /\
    queue_contents (message_registry w') target = rest.

(** ** Runs of queue operations *)

(** [add_queue] called once per envelope of [es], in order. *)
Fixpoint add_all (target : string) (es : list MessageData) (self : QueueBase)
    : QueueBase :=
  match es with
  | [] => self
  | e :: rest => add_all target rest (add_queue target e self)
  end.

(** [get_from_queue] called [n] times, with the results in call order. *)
Fixpoint drain (target : string) (n : nat) (self : QueueBase)
    : list (option MessageData) * QueueBase :=
  match n with
  | O => ([], self)
  | S m =>
      let (x, self') := get_from_queue target self in
      let (xs, self'') := drain target m self' in
      (x :: xs, self'')
  end.

(** ** [parse_args]: the [--grpc-ssl] option

    [os.getenv(name, default)] over the process environment, [bool(s)] on a
    string, and the value argparse gives [--grpc-ssl]: [type=bool] applied
    to the command-line text when the option is given, else the default
    [bool(os.getenv("DIRECTORD_GRPC_SSL", "False"))]. *)
Definition getenv (environ : gmap string string) (name dflt : string) : string :=
  default dflt (environ !! name).

Definition bool_of_str (s : string) : bool := negb (bool_decide (s = "")).

Definition grpc_ssl_default (environ : gmap string string) : bool :=
  bool_of_str (getenv environ "DIRECTORD_GRPC_SSL" "False").

Definition grpc_ssl (environ : gmap string string) (given : option string) : bool :=
  match given with
  | Some text => bool_of_str text
  | None => grpc_ssl_default environ
  end.

(** ** Driver: receiving *)
Module DriverRecv.

(** [data.data or "{}"]. *)
Definition data_or_object (s : string) : string :=
  if bool_decide (s = "") then "{}" else s.

(** [self.mode == "server"]. *)
Definition is_server (self : Driver.t) : bool :=
  bool_decide (Driver.mode self = Some "server").

(** The list built from the envelope; on [None] the first attribute read,
    [data.msg_id], fails. *)
Definition unpack (self : Driver.t) (data : option MessageData) : M (list string) :=
  match data with
  | None => raise (AttributeError "msg_id")
  | Some d =>
      let return_msg :=
        [md_msg_id d; md_control d; md_command d; data_or_object (md_data d);
         md_info d; md_stderr d; md_stdout d] in
      ret (if is_server self then md_identity d :: return_msg else return_msg)
  end.

Definition backend_recv (truthy : MessageData -> bool) (self : Driver.t)
    : M (list string) :=
  c <- Driver.client_method self "get_message" ;;
  r <- MessageServiceClient.get_message truthy c (Driver.identity self) ;;
  unpack self (snd r).

Definition job_recv (truthy : MessageData -> bool) (self : Driver.t)
    : M (list string) :=
  c <- Driver.client_method self "get_job" ;;
  r <- MessageServiceClient.get_job truthy c (Driver.identity self) ;;
  unpack self (snd r).

End DriverRecv.

(** The coordinator's driver once [backend_init] has bound and connected it. *)
Definition server_driver : Driver.t :=
  {| Driver.identity := "DIRECTORD_SERVER"; Driver.mode := Some "server";
     Driver._client := Some (MessageServiceClient.connected "127.0.0.1" 5558 false);
     Driver.timeout := None; Driver.heartbeat_notice := "heartbeat";
     Driver.machine_id := JStr "machine-0" |}.

(** ** Driver: bind, connect and close

    The driver object with the attributes the lifecycle methods use on top of
    those of [Driver.t].  A method may raise after it has assigned an
    attribute, so each one threads the object next to the world and hands it
    back on both outcomes. *)
Module Lifecycle.

(** The object [grpc.server(...)] returns, once the servicer and the port
    are added and it is started. *)
Record GrpcServer := mkServer {
  listening : string;
  max_workers : Z;
}.

Record t := mk {
  driver : Driver.t;
  _server : option GrpcServer;
  grpc_port : Z;
  server_address : string;
  bind_address : string;
  args_grpc_ssl : bool;
  args_grpc_server_workers : Z;
}.

Definition set_client (c : option MessageServiceClient.t) (self : t) : t :=
  {| driver :=
       {| Driver.identity := Driver.identity (driver self);
          Driver.mode := Driver.mode (driver self);
          Driver._client := c;
          Driver.timeout := Driver.timeout (driver self);
          Driver.heartbeat_notice := Driver.heartbeat_notice (driver self);
          Driver.machine_id := Driver.machine_id (driver self) |};
     _server := _server self; grpc_port := grpc_port self;
     server_address := server_address self; bind_address := bind_address self;
     args_grpc_ssl := args_grpc_ssl self;
     args_grpc_server_workers := args_grpc_server_workers self |}.

Definition set_server (s : option GrpcServer) (self : t) : t :=
  {| driver := driver self; _server := s; grpc_port := grpc_port self;
     server_address := server_address self; bind_address := bind_address self;
     args_grpc_ssl := args_grpc_ssl self;
     args_grpc_server_workers := args_grpc_server_workers self |}.

Definition L (A : Type) : Type := t -> World -> (outcome A * t) * World.

Definition lbind {A B} (m : L A) (k : A -> L B) : L B :=
  fun self w =>
    match m self w with
    | ((Return a, self'), w') => k a self' w'
    | ((Raise e, self'), w') => ((Raise e, self'), w')
    end.

Definition lift {A} (m : M A) : L A :=
  fun self w => let (o, w') := m w in ((o, self), w').

Definition assign (f : t -> t) : L unit :=
  fun self w => ((Return tt, f self), w).

Definition skip : L unit := fun self w => ((Return tt, self), w).

Section Connecting.

(** [MessageServiceClient(log, address, port, secure)] and
    [client.connect()]: both wait on another thread for the channel to become
    ready, so what they do to the world is left open here. *)
Variable new_client : string -> Z -> bool -> M MessageServiceClient.t.
Variable connect : MessageServiceClient.t -> M MessageServiceClient.t.

Definition _backend_connection (force : bool) : L unit :=
  fun self =>
    match Driver._client (driver self) with
    | Some _ =>
        lift (log DEBUG "Backend already configured, ignoring bind" []) self
    | None =>
        lbind (lift (new_client (server_address self) (grpc_port self)
                       (args_grpc_ssl self)))
          (fun c =>
             lbind (assign (set_client (Some c)))
               (fun _ =>
                  lbind (if force
                         then lbind (lift (connect c))
                                (fun c' => assign (set_client (Some c')))
                         else skip)
                    (fun _ =>
                       lift (log INFO "grpc client to %s:%s started"
                               [AStr (server_address self);
                                AStr (pretty (grpc_port self))])))) self
    end.

Definition _backend_bind : L unit :=
  fun self =>
    match _server self with
    | Some _ =>
        lift (log DEBUG "Backend already configured, ignoring bind" []) self
    | None =>
        lbind (assign (set_server
                 (Some {| listening :=
                            bind_address self +:+ ":" +:+ pretty (grpc_port self);
                          max_workers := args_grpc_server_workers self |})))
          (fun _ =>
             lbind (lift (log INFO "grpc backend started at %s:%s"
                            [AStr (bind_address self);
                             AStr (pretty (grpc_port self))]))
               (fun _ => _backend_connection false)) self
    end.

(** [self._server.stop(grace=None)] acts on the server object only, which is
    dropped right after; the client is closed when there is one. *)
Definition _backend_close : L unit :=
  fun self =>
    lbind (match Driver._client (driver self) with
           | Some c => lbind (lift (MessageServiceClient.close c)) (fun _ => skip)
           | None => skip
           end)
      (fun _ => lbind (assign (set_server None))
                  (fun _ => assign (set_client None))) self.

Definition backend_init : L unit :=
  fun self =>
    if DriverRecv.is_server (driver self)
    then _backend_bind self
    else _backend_connection false self.

Definition backend_close : L unit := _backend_close.

Definition job_init : L unit :=
  fun self =>
    if DriverRecv.is_server (driver self)
    then _backend_bind self
    else _backend_connection false self.

Definition job_close : L unit := _backend_close.

End Connecting.

End Lifecycle.

(** A constructor that finds the channel ready at once and adds nothing to
    the world. *)
Definition ready_client (address : string) (port : Z) (sec : bool)
    : M MessageServiceClient.t :=
  ret (MessageServiceClient.connected address port sec).

(** An agent's driver object before [backend_init]. *)
Definition new_agent : Lifecycle.t :=
  {| Lifecycle.driver :=
       {| Driver.identity := "agent-1"; Driver.mode := Some "client";
          Driver._client := None; Driver.timeout := None;
          Driver.heartbeat_notice := "heartbeat";
          Driver.machine_id := JStr "machine-1" |};
     Lifecycle._server := None; Lifecycle.grpc_port := 5558;
     Lifecycle.server_address := "127.0.0.1";
     Lifecycle.bind_address := "0.0.0.0";
     Lifecycle.args_grpc_ssl := false;
     Lifecycle.args_grpc_server_workers := 4 |}.

(** The coordinator's driver object before [backend_init]. *)
Definition new_server : Lifecycle.t :=
  {| Lifecycle.driver :=
       {| Driver.identity := "DIRECTORD_SERVER"; Driver.mode := Some "server";
          Driver._client := None; Driver.timeout := None;
          Driver.heartbeat_notice := "heartbeat";
          Driver.machine_id := JStr "machine-0" |};
     Lifecycle._server := None; Lifecycle.grpc_port := 5558;
     Lifecycle.server_address := "127.0.0.1";
     Lifecycle.bind_address := "0.0.0.0";
     Lifecycle.args_grpc_ssl := false;
     Lifecycle.args_grpc_server_workers := 4 |}.

(** * Properties *)

(** ** Queues *)

Section QueueBaseFacts.
Context (t : string).

Lemma add_queue_data (e : MessageData) (q : QueueBase) :
  _data_queue (add_queue t e q)
  = <[t := queue_contents q t ++ [e]]> (_data_queue q).
Proof.
  unfold add_queue, queue_contents.
  destruct (_data_queue q !! t) as [l|] eqn:Hl; simpl.
  - by rewrite Hl.
  - rewrite lookup_insert_eq. simpl. by rewrite insert_insert_eq.
Qed.

Lemma add_queue_contents (e : MessageData) (q : QueueBase) :
  queue_contents (add_queue t e q) t = queue_contents q t ++ [e].
Proof.
  unfold queue_contents at 1. by rewrite add_queue_data, lookup_insert_eq.
Qed.

Lemma add_queue_other (e : MessageData) (q : QueueBase) (u : string) :
  t ≠ u -> _data_queue (add_queue t e q) !! u = _data_queue q !! u.
Proof. intros Hne. by rewrite add_queue_data, lookup_insert_ne. Qed.

Lemma get_from_queue_cons (q : QueueBase) (x : MessageData) (rest : list MessageData) :
  queue_contents q t = x :: rest ->
  get_from_queue t q = (Some x, {| _data_queue := <[t := rest]> (_data_queue q) |}).
Proof.
  unfold queue_contents, get_from_queue.
  destruct (_data_queue q !! t) as [[|y l]|]; simpl; intros H; try discriminate.
  by inversion H.
Qed.

Lemma get_from_queue_nil (q : QueueBase) :
  queue_contents q t = [] -> get_from_queue t q = (None, q).
Proof.
  unfold queue_contents, get_from_queue.
  destruct (_data_queue q !! t) as [[|y l]|]; simpl; intros H; done.
Qed.

Lemma get_from_queue_other (q : QueueBase) (u : string) :
  t ≠ u ->
  _data_queue (snd (get_from_queue t q)) !! u = _data_queue q !! u.
Proof.
  intros Hne. unfold get_from_queue.
  destruct (_data_queue q !! t) as [[|y l]|]; simpl; try done.
  by rewrite lookup_insert_ne.
Qed.

Lemma check_queue_contents (q : QueueBase) :
  check_queue t q = negb (bool_decide (queue_contents q t = [])).
Proof.
  unfold check_queue, queue_contents.
  destruct (_data_queue q !! t); done.
Qed.

End QueueBaseFacts.

(** C6: on a registry where target [t] has nothing queued, [add_queue t e1]
    then [add_queue t e2] make the first [get_from_queue t] return [e1] and
    the second return [e2], leaving the queue empty; and whatever the queue
    of [t] holds, one [get_from_queue t] returns its oldest envelope and
    removes that envelope only. *)
Theorem fifo_per_target (t : string) (e1 e2 : MessageData) (q : QueueBase) :
  queue_contents q t = [] ->
  let q2 := add_queue t e2 (add_queue t e1 q) in
  let first := get_from_queue t q2 in
  let second := get_from_queue t (snd first) in
  fst first = Some e1 /\
  queue_contents (snd first) t = [e2] /\
  fst second = Some e2 /\
  queue_contents (snd second) t = [] /\
  (forall (q0 : QueueBase) (x : MessageData) (rest : list MessageData),
      queue_contents q0 t = x :: rest ->
      fst (get_from_queue t q0) = Some x /\
      queue_contents (snd (get_from_queue t q0)) t = rest).
Proof.
  intros Hempty q2 first second.
  assert (Hq2 : queue_contents q2 t = [e1; e2]).
  { unfold q2. rewrite !add_queue_contents, Hempty. reflexivity. }
  assert (Hstep : forall q0 x rest, queue_contents q0 t = x :: rest ->
            fst (get_from_queue t q0) = Some x /\
            queue_contents (snd (get_from_queue t q0)) t = rest).
  { intros q0 x rest H. rewrite (get_from_queue_cons t q0 x rest H). simpl.
    split; [done|]. unfold queue_contents. simpl. by rewrite lookup_insert_eq. }
  destruct (Hstep q2 e1 [e2] Hq2) as [H1 H2].
  destruct (Hstep (snd first) e2 [] H2) as [H3 H4].
  split; [exact H1|]. split; [exact H2|]. split; [exact H3|].
  split; [exact H4|]. exact Hstep.
Qed.

Lemma fifo_per_target_witness :
  let e1 := new_MessageData (Some "a") (Some "1") None None None None None None in
  let e2 := new_MessageData (Some "a") (Some "2") None None None None None None in
  fst (get_from_queue "agent-1" (add_queue "agent-1" e2 (add_queue "agent-1" e1 _setup)))
  = Some e1.
Proof.
  intros e1 e2.
  exact (proj1 (fifo_per_target "agent-1" e1 e2 _setup eq_refl)).
Defined.

(** ** Singletons *)

Lemma instance_on_instance {R} (cls : QueueClass)
    (method : QueueBase -> R * QueueBase) (p : Process) :
  instance cls (snd (on_instance cls method p)) = snd (method (instance cls p)).
Proof.
  unfold on_instance. destruct (method (instance cls p)) as [r q']. simpl.
  unfold instance, holder.
  destruct cls, p as [[?|] [?|] [?|]]; reflexivity.
Qed.

Lemma on_instance_result {R} (cls : QueueClass)
    (method : QueueBase -> R * QueueBase) (p : Process) :
  fst (on_instance cls method p) = fst (method (instance cls p)).
Proof.
  unfold on_instance. by destruct (method (instance cls p)).
Qed.

(** Nothing assigns [QueueBase._instance] unless [instance()] is called on
    [QueueBase] itself. *)
Lemma on_instance_base_unset {R} (cls : QueueClass)
    (method : QueueBase -> R * QueueBase) (p : Process) :
  cls ≠ QueueBaseClass ->
  QueueBase_instance p = None ->
  QueueBase_instance (snd (on_instance cls method p)) = None.
Proof.
  intros Hcls Hp. unfold on_instance.
  destruct (method (instance cls p)) as [r q']. simpl.
  unfold holder. destruct cls, p as [[?|] [?|] [?|]]; simpl in *; congruence.
Qed.

Lemma on_instance_other {R} (cls cls' : QueueClass)
    (method : QueueBase -> R * QueueBase) (p : Process) :
  cls ≠ QueueBaseClass -> cls' ≠ cls ->
  QueueBase_instance p = None ->
  instance cls' (snd (on_instance cls method p)) = instance cls' p.
Proof.
  intros Hcls Hne Hp. unfold on_instance.
  destruct (method (instance cls p)) as [r q']. simpl.
  unfold instance, holder.
  destruct cls, cls', p as [[?|] [?|] [?|]]; simpl in *; congruence.
Qed.

(** ** Handlers, step by step *)

Lemma call_run {R} (cls : QueueClass) (method : QueueBase -> R * QueueBase)
    (w : World) :
  call cls method w
  = (Return (fst (on_instance cls method (w_proc w))),
     set_proc (snd (on_instance cls method (w_proc w))) w).
Proof. unfold call. by destruct (on_instance cls method (w_proc w)). Qed.

Lemma GetMessage_run (truthy : MessageData -> bool) (t : string) (w : World) :
  let r := on_instance MessageQueue (get_from_queue t) (w_proc w) in
  let st := py_truth truthy (fst r) in
  let response := MessageResponse "uuid!" st t (if st then fst r else None) in
  MessageServiceServicer.GetMessage truthy (GetMessageRequest t) w
  = (Return response,
     set_proc (snd r)
       (set_log
          (w_log w
           ++ [mkLog DEBUG "-> GetMessage Request: %s" [AMsg (GetMessageRequest t)]]
           ++ (if st then [] else [mkLog DEBUG "! No messages for %s" [AStr t]])
           ++ [mkLog DEBUG "<- GetMessage Response: %s" [AMsg response]]) w)).
Proof.
  intros r st response. subst response st r.
  unfold MessageServiceServicer.GetMessage, bind, call.
  change (attr_str (GetMessageRequest t) "target" w) with (Return t, w).
  cbv beta iota.
  unfold log at 1. cbv beta iota. cbn [w_proc].
  destruct (on_instance MessageQueue (get_from_queue t) (w_proc w)) as [o p'].
  cbn [fst snd].
  destruct (py_truth truthy o); cbn [negb];
    unfold log, ret, set_proc, set_log; cbn; rewrite <- ?app_assoc; reflexivity.
Qed.

Lemma GetJob_run (truthy : MessageData -> bool) (t : string) (w : World) :
  let r := on_instance JobQueue (get_from_queue t) (w_proc w) in
  let st := py_truth truthy (fst r) in
  let response := JobResponse "uuid!" st t (if st then fst r else None) in
  MessageServiceServicer.GetJob truthy (GetJobRequest t) w
  = (Return response,
     set_proc (snd r)
       (set_log
          (w_log w
           ++ [mkLog DEBUG "-> GetJob Request: %s" [AMsg (GetJobRequest t)]]
           ++ (if st then [] else [mkLog DEBUG "! No jobs for %s" [AStr t]])
           ++ [mkLog DEBUG "<- GetJob Response: %s" [AMsg response]]) w)).
Proof.
  intros r st response. subst response st r.
  unfold MessageServiceServicer.GetJob, bind, call.
  change (attr_str (GetJobRequest t) "target" w) with (Return t, w).
  cbv beta iota.
  unfold log at 1. cbv beta iota. cbn [w_proc].
  destruct (on_instance JobQueue (get_from_queue t) (w_proc w)) as [o p'].
  cbn [fst snd].
  destruct (py_truth truthy o); cbn [negb];
    unfold log, ret, set_proc, set_log; cbn; rewrite <- ?app_assoc; reflexivity.
Qed.

Lemma PutMessage_run (t : string) (d : MessageData) (w : World) :
  MessageServiceServicer.PutMessage (PutMessageRequest t d) w
  = (Return (Status "uuid!" true),
     set_proc (snd (on_instance MessageQueue (fun q => (tt, add_queue t d q)) (w_proc w)))
       (set_log
          (w_log w
           ++ [mkLog DEBUG "-> PutMessage Request: %s" [AMsg (PutMessageRequest t d)];
               mkLog DEBUG "+ We added message to queue (%s)" [AStr t];
               mkLog DEBUG "<- PutMessage Response: %s" [AMsg (Status "uuid!" true)]])
          w)).
Proof.
  unfold MessageServiceServicer.PutMessage, bind, call.
  change (attr_str (PutMessageRequest t d) "target" w) with (Return t, w).
  cbv beta iota.
  change (attr_data (PutMessageRequest t d) "data" w) with (Return d, w).
  cbv beta iota.
  unfold log at 1. cbv beta iota. cbn [w_proc].
  destruct (on_instance MessageQueue _ (w_proc w)) as [o p'].
  unfold log, ret, set_proc, set_log; cbn; rewrite <- ?app_assoc; reflexivity.
Qed.

Lemma PutJob_run (t : string) (d : MessageData) (w : World) :
  MessageServiceServicer.PutJob (PutJobRequest t d) w
  = (Return (Status "uuid!" true),
     set_proc (snd (on_instance JobQueue (fun q => (tt, add_queue t d q)) (w_proc w)))
       (set_log
          (w_log w
           ++ [mkLog DEBUG "-> PutJob Request: %s" [AMsg (PutJobRequest t d)];
               mkLog DEBUG "+ We added job to queue (%s)" [AStr t];
               mkLog DEBUG "<- PutJob Response: %s" [AMsg (Status "uuid!" true)]])
          w)).
Proof.
  unfold MessageServiceServicer.PutJob, bind, call.
  change (attr_str (PutJobRequest t d) "target" w) with (Return t, w).
  cbv beta iota.
  change (attr_data (PutJobRequest t d) "data" w) with (Return d, w).
  cbv beta iota.
  unfold log at 1. cbv beta iota. cbn [w_proc].
  destruct (on_instance JobQueue _ (w_proc w)) as [o p'].
  unfold log, ret, set_proc, set_log; cbn; rewrite <- ?app_assoc; reflexivity.
Qed.

Lemma MessageCheck_run (t : string) (w : World) :
  let r := on_instance MessageQueue (fun q => (check_queue t q, q)) (w_proc w) in
  MessageServiceServicer.MessageCheck (CheckRequest t) w
  = (Return (CheckResponse t (fst r)),
     set_proc (snd r)
       (set_log (w_log w ++ [mkLog DEBUG "-> Message Check: %s" [AStr t]]) w)).
Proof.
  intros r. subst r.
  unfold MessageServiceServicer.MessageCheck, bind, call.
  change (attr_str (CheckRequest t) "target" w) with (Return t, w).
  cbv beta iota.
  unfold log at 1. cbv beta iota. cbn [w_proc].
  destruct (on_instance MessageQueue _ (w_proc w)) as [o p'].
  reflexivity.
Qed.

Lemma JobCheck_run (t : string) (w : World) :
  let r := on_instance JobQueue (fun q => (check_queue t q, q)) (w_proc w) in
  MessageServiceServicer.JobCheck (CheckRequest t) w
  = (Return (CheckResponse t (fst r)),
     set_proc (snd r)
       (set_log (w_log w ++ [mkLog DEBUG "-> Job Check: %s" [AStr t]]) w)).
Proof.
  intros r. subst r.
  unfold MessageServiceServicer.JobCheck, bind, call.
  change (attr_str (CheckRequest t) "target" w) with (Return t, w).
  cbv beta iota.
  unfold log at 1. cbv beta iota. cbn [w_proc].
  destruct (on_instance JobQueue _ (w_proc w)) as [o p'].
  reflexivity.
Qed.

Lemma PurgeQueues_run (request : PbMessage) (w : World) :
  MessageServiceServicer.PurgeQueues request w
  = (Return (Status "uuid!" true),
     set_proc
       (snd (on_instance JobQueue purge_queue
               (snd (on_instance MessageQueue purge_queue (w_proc w)))))
       (set_log (w_log w ++ [mkLog WARNING "Purging message and job queues." []]) w)).
Proof.
  unfold MessageServiceServicer.PurgeQueues, bind, call.
  unfold log at 1. cbv beta iota. cbn [w_proc].
  destruct (on_instance MessageQueue purge_queue (w_proc w)) as [o p'].
  cbn [w_proc set_proc snd].
  destruct (on_instance JobQueue purge_queue p') as [o' p''].
  reflexivity.
Qed.

(** ** The server's registries *)

Lemma serve_base_unset (truthy : MessageData -> bool) (c : Call) (w : World) :
  QueueBase_instance (w_proc w) = None ->
  QueueBase_instance (w_proc (snd (serve truthy c w))) = None.
Proof.
  intros Hw. destruct c; unfold serve.
  - rewrite GetMessage_run. cbn [snd w_proc set_proc set_log]. by apply on_instance_base_unset.
  - rewrite GetJob_run. cbn [snd w_proc set_proc set_log]. by apply on_instance_base_unset.
  - rewrite PutMessage_run. cbn [snd w_proc set_proc set_log]. by apply on_instance_base_unset.
  - rewrite PutJob_run. cbn [snd w_proc set_proc set_log]. by apply on_instance_base_unset.
  - rewrite MessageCheck_run. cbn [snd w_proc set_proc set_log]. by apply on_instance_base_unset.
  - rewrite JobCheck_run. cbn [snd w_proc set_proc set_log]. by apply on_instance_base_unset.
  - rewrite PurgeQueues_run. cbn [snd w_proc set_proc set_log].
    apply on_instance_base_unset; [done|]. by apply on_instance_base_unset.
Qed.

Lemma serve_all_base_unset (truthy : MessageData -> bool) (cs : list Call) :
  forall w : World,
    QueueBase_instance (w_proc w) = None ->
    QueueBase_instance (w_proc (serve_all truthy cs w)) = None.
Proof.
  induction cs as [|c cs IH]; intros w Hw; simpl; [done|].
  apply IH. by apply serve_base_unset.
Qed.

Lemma served_base_unset (p : Process) :
  served p -> QueueBase_instance p = None.
Proof.
  intros (truthy & cs & w & Hw & ->).
  apply serve_all_base_unset. by rewrite Hw.
Qed.

(** C9: for distinct targets [t] and [u], [add_queue t e] and
    [get_from_queue t] leave the queue of [u] as it was, and a check of [t]
    leaves the whole registry as it was; and in a running server the handlers
    of the message registry leave the job registry unchanged, the handlers of
    the job registry leave the message registry unchanged, and so does any
    method run on one of the two singletons (such as [purge_queue]). *)
Theorem registries_are_framed (truthy : MessageData -> bool) (t u : string)
    (e : MessageData) (q : QueueBase) (w : World) :
  t ≠ u ->
  served (w_proc w) ->
  (_data_queue (add_queue t e q) !! u = _data_queue q !! u /\
   _data_queue (snd (get_from_queue t q)) !! u = _data_queue q !! u /\
   message_registry (snd (MessageServiceServicer.MessageCheck (CheckRequest t) w))
   = message_registry w /\
   job_registry (snd (MessageServiceServicer.JobCheck (CheckRequest t) w))
   = job_registry w) /\
  (job_registry (snd (serve truthy (CallGetMessage t) w)) = job_registry w /\
   job_registry (snd (serve truthy (CallPutMessage t e) w)) = job_registry w /\
   job_registry (snd (serve truthy (CallMessageCheck t) w)) = job_registry w) /\
  (message_registry (snd (serve truthy (CallGetJob t) w)) = message_registry w /\
   message_registry (snd (serve truthy (CallPutJob t e) w)) = message_registry w /\
   message_registry (snd (serve truthy (CallJobCheck t) w)) = message_registry w) /\
  (forall (R : Type) (method : QueueBase -> R * QueueBase),
      instance JobQueue (snd (on_instance MessageQueue method (w_proc w)))
      = instance JobQueue (w_proc w) /\
      instance MessageQueue (snd (on_instance JobQueue method (w_proc w)))
      = instance MessageQueue (w_proc w)).
Proof.
  intros Hne Hserved.
  pose proof (served_base_unset _ Hserved) as Hbase.
  unfold message_registry, job_registry, serve.
  split; [|split; [|split]].
  - split; [by apply add_queue_other|]. split; [by apply get_from_queue_other|].
    rewrite MessageCheck_run, JobCheck_run. cbn [snd w_proc set_proc set_log].
    by rewrite !instance_on_instance.
  - rewrite GetMessage_run, PutMessage_run, MessageCheck_run.
    cbn [snd w_proc set_proc set_log].
    by rewrite !on_instance_other.
  - rewrite GetJob_run, PutJob_run, JobCheck_run.
    cbn [snd w_proc set_proc set_log].
    by rewrite !on_instance_other.
  - intros R method. by rewrite !on_instance_other.
Qed.

Lemma registries_are_framed_witness :
  let e := new_MessageData (Some "a") (Some "1") None None None None None None in
  let w := serve_all message_truth [CallPutJob "agent-2" e]
             (quiet_world sample_uuids []) in
  job_registry (snd (serve message_truth (CallPutMessage "agent-1" e) w))
  = job_registry w.
Proof.
  intros e w.
  refine (proj1 (proj2 (proj1 (proj2
    (registries_are_framed message_truth "agent-1" "agent-2" e _setup w _ _))))).
  - discriminate.
  - exists message_truth, [CallPutJob "agent-2" e], (quiet_world sample_uuids []).
    split; reflexivity.
Defined.

Lemma purge_both (cls : QueueClass) (p : Process) :
  cls ≠ QueueBaseClass ->
  instance cls
    (snd (on_instance JobQueue purge_queue
            (snd (on_instance MessageQueue purge_queue p))))
  = {| _data_queue := ∅ |}.
Proof.
  intros Hcls. unfold on_instance, purge_queue, instance, holder.
  destruct cls, p as [[?|] [?|] [?|]]; simpl in *; congruence.
Qed.

(** C7: [PurgeQueues] answers with a successful [Status] and leaves both the
    message registry and the job registry without any queue, so that
    [check_queue] is false for every target on both, as [MessageCheck] and
    [JobCheck] then report. *)
Theorem purge_clears_both_registries (request : PbMessage) (w : World) (t : string) :
  exists w',
    MessageServiceServicer.PurgeQueues request w = (Return (Status "uuid!" true), w') /\
    _data_queue (message_registry w') = ∅ /\
    _data_queue (job_registry w') = ∅ /\
    check_queue t (message_registry w') = false /\
    check_queue t (job_registry w') = false /\
    fst (MessageServiceServicer.MessageCheck (CheckRequest t) w')
    = Return (CheckResponse t false) /\
    fst (MessageServiceServicer.JobCheck (CheckRequest t) w')
    = Return (CheckResponse t false).
Proof.
  eexists. split; [apply PurgeQueues_run|].
  unfold message_registry, job_registry. cbn [w_proc set_proc set_log].
  rewrite !purge_both by done. cbn [_data_queue].
  split; [done|]. split; [done|]. split; [done|]. split; [done|].
  rewrite MessageCheck_run, JobCheck_run. cbn [fst w_proc set_proc set_log].
  rewrite !on_instance_result. cbn [fst]. rewrite !purge_both by done.
  done.
Qed.

(** C10, as the code has it: a [MessageData] object is always true, so the
    status of a [GetMessage] or [GetJob] response is true exactly when an
    envelope waited for the target.  The oldest envelope, whatever its
    fields, is then returned as the data and removed; with nothing waiting the
    status is false, the data absent and the registry unchanged. *)
Theorem get_status_is_queue_nonempty (t : string) (w : World) :
  match queue_contents (message_registry w) t with
  | [] =>
      exists w',
        MessageServiceServicer.GetMessage message_truth (GetMessageRequest t) w
        = (Return (MessageResponse "uuid!" false t None), w') /\
        message_registry w' = message_registry w
  | x :: rest =>
      exists w',
        MessageServiceServicer.GetMessage message_truth (GetMessageRequest t) w
        = (Return (MessageResponse "uuid!" true t (Some x)), w') /\
        queue_contents (message_registry w') t = rest
  end /\
  match queue_contents (job_registry w) t with
  | [] =>
      exists w',
        MessageServiceServicer.GetJob message_truth (GetJobRequest t) w
        = (Return (JobResponse "uuid!" false t None), w') /\
        job_registry w' = job_registry w
  | x :: rest =>
      exists w',
        MessageServiceServicer.GetJob message_truth (GetJobRequest t) w
        = (Return (JobResponse "uuid!" true t (Some x)), w') /\
        queue_contents (job_registry w') t = rest
  end.
Proof.
  unfold message_registry, job_registry. split.
  - destruct (queue_contents (instance MessageQueue (w_proc w)) t) as [|x rest] eqn:Hq.
    + eexists. split.
      * rewrite GetMessage_run, on_instance_result.
        rewrite (get_from_queue_nil t _ Hq). reflexivity.
      * cbn [w_proc set_proc set_log]. rewrite instance_on_instance.
        by rewrite (get_from_queue_nil t _ Hq).
    + eexists. split.
      * rewrite GetMessage_run, on_instance_result.
        rewrite (get_from_queue_cons t _ x rest Hq). reflexivity.
      * cbn [w_proc set_proc set_log]. rewrite instance_on_instance.
        rewrite (get_from_queue_cons t _ x rest Hq). cbn [snd].
        unfold queue_contents. cbn [_data_queue]. by rewrite lookup_insert_eq.
  - destruct (queue_contents (instance JobQueue (w_proc w)) t) as [|x rest] eqn:Hq.
    + eexists. split.
      * rewrite GetJob_run, on_instance_result.
        rewrite (get_from_queue_nil t _ Hq). reflexivity.
      * cbn [w_proc set_proc set_log]. rewrite instance_on_instance.
        by rewrite (get_from_queue_nil t _ Hq).
    + eexists. split.
      * rewrite GetJob_run, on_instance_result.
        rewrite (get_from_queue_cons t _ x rest Hq). reflexivity.
      * cbn [w_proc set_proc set_log]. rewrite instance_on_instance.
        rewrite (get_from_queue_cons t _ x rest Hq). cbn [snd].
        unfold queue_contents. cbn [_data_queue]. by rewrite lookup_insert_eq.
Qed.

(** C10 as stated fails: an all-default envelope at the head of the queue is
    not answered with status false and dropped; [GetMessage] returns it with
    status true. *)
Lemma empty_envelope_is_not_discarded :
  ~ discards_envelope message_truth "agent-1"
      (serve_all message_truth [CallPutMessage "agent-1" empty_MessageData]
         (quiet_world sample_uuids [])).
Proof.
  intros (x & rest & w' & _ & Hget & _). vm_compute in Hget. discriminate Hget.
Qed.

(** ** The client *)

(** C8: once [close()] has run, each of [get_message], [get_job],
    [put_message], [put_job], [message_check], [job_check] and [purge_queues]
    raises an [Exception] ("... request after close") and does nothing else;
    and a second [close()] returns normally and changes nothing. *)
Theorem operations_after_close_raise (truthy : MessageData -> bool)
    (self : MessageServiceClient.t) (w : World) (target : string)
    (put_target identity msg_id control command data info stderr stdout : option string) :
  exists (closed : MessageServiceClient.t) (w' : World),
    MessageServiceClient.close self w = (Return closed, w') /\
    MessageServiceClient.get_message truthy closed target w'
    = (Raise (Exception "Message request after close"), w') /\
    MessageServiceClient.get_job truthy closed target w'
    = (Raise (Exception "Job request after close"), w') /\
    MessageServiceClient.put_message closed put_target identity msg_id control
      command data info stderr stdout w'
    = (Raise (Exception "Message request after close"), w') /\
    MessageServiceClient.put_job closed put_target identity msg_id control
      command data info stderr stdout w'
    = (Raise (Exception "Job request after close"), w') /\
    MessageServiceClient.message_check closed target w'
    = (Raise (Exception "Job request after close"), w') /\
    MessageServiceClient.job_check closed target w'
    = (Raise (Exception "Job request after close"), w') /\
    MessageServiceClient.purge_queues closed w'
    = (Raise (Exception "Message request after close"), w') /\
    MessageServiceClient.close closed w' = (Return closed, w').
Proof.
  eexists. eexists. split; [reflexivity|].
  repeat (split; [reflexivity|]). reflexivity.
Qed.

Lemma rpc_failed (handler : PbMessage -> M PbMessage) (request : PbMessage)
    (w : World) (err : RpcStatus) :
  hd None (w_net w) = Some err ->
  rpc handler request w = (Raise (RpcError err), pop_net w).
Proof. intros H. unfold rpc. by rewrite H. Qed.

Lemma rpc_delivered (handler : PbMessage -> M PbMessage) (request : PbMessage)
    (w : World) :
  hd None (w_net w) = None ->
  rpc handler request w = handler request (pop_net w).
Proof. intros H. unfold rpc. by rewrite H. Qed.

Lemma log_rpc_error_run (method : string) (err : RpcStatus) (w : World) :
  log_rpc_error method err w
  = (Return tt, set_log (w_log w ++ rpc_error_records method err) w).
Proof.
  unfold log_rpc_error, bind, log, set_log, rpc_error_records. cbn.
  by rewrite <- app_assoc.
Qed.

(** C2, as the code has it: when the stub call of [get_message] or [get_job]
    fails with a transport error, the client logs the error (method name,
    status code and detail, then the error itself) and raises that same
    error to its caller. *)
Theorem get_reraises_transport_error (truthy : MessageData -> bool)
    (self : MessageServiceClient.t) (target : string) (err : RpcStatus)
    (w : World) :
  is_Some (MessageServiceClient.stub self) ->
  hd None (w_net w) = Some err ->
  MessageServiceClient.get_message truthy self target w
  = (Raise (RpcError err),
     set_log (w_log w ++ rpc_error_records "get_message" err) (pop_net w)) /\
  MessageServiceClient.get_job truthy self target w
  = (Raise (RpcError err),
     set_log (w_log w ++ rpc_error_records "get_job" err) (pop_net w)).
Proof.
  intros [s Hs] Hnet.
  unfold MessageServiceClient.get_message, MessageServiceClient.get_job,
    MessageServiceClient.require_stub.
  rewrite Hs. unfold bind, ret, try_except, raise. cbv beta iota.
  rewrite !rpc_failed with (err := err) by done. cbv beta iota.
  rewrite !log_rpc_error_run. split; reflexivity.
Qed.

Lemma get_reraises_transport_error_witness :
  fst (MessageServiceClient.get_message message_truth
         (MessageServiceClient.connected "127.0.0.1" 5558 false) "agent-1"
         (failing_world sample_uuids [] unavailable))
  = Raise (RpcError unavailable).
Proof.
  refine (f_equal fst (proj1 (get_reraises_transport_error message_truth
    (MessageServiceClient.connected "127.0.0.1" 5558 false) "agent-1"
    unavailable (failing_world sample_uuids [] unavailable) _ _))).
  - eexists. reflexivity.
  - reflexivity.
Defined.

(** C2 as stated fails: with the server unreachable, [get_message] does not
    report "no data". *)
Lemma get_message_does_not_absorb :
  ~ reports_no_data
      (MessageServiceClient.get_message message_truth
         (MessageServiceClient.connected "127.0.0.1" 5558 false) "agent-1")
      "agent-1" (failing_world sample_uuids [] unavailable).
Proof.
  intros [w' H]. vm_compute in H. discriminate H.
Qed.

(** C5: [purge_queues] raises a transport error to its caller after logging
    it; but when the call goes through, the queues are purged, "Queue purged"
    is logged, and reading [response.status] from the [Status] response, which
    has [uuid] and [result] only, raises [AttributeError]: no boolean is
    returned. *)
Theorem purge_queues_outcomes (self : MessageServiceClient.t) (w : World) :
  is_Some (MessageServiceClient.stub self) ->
  (forall err : RpcStatus,
      hd None (w_net w) = Some err ->
      MessageServiceClient.purge_queues self w
      = (Raise (RpcError err),
         set_log (w_log w ++ rpc_error_records "purge_queue" err) (pop_net w))) /\
  (hd None (w_net w) = None ->
   exists w',
     MessageServiceClient.purge_queues self w = (Raise (AttributeError "status"), w') /\
     _data_queue (message_registry w') = ∅ /\
     _data_queue (job_registry w') = ∅ /\
     pb_getattr (Status "uuid!" true) "result" = Some (VBool true)).
Proof.
  intros [s Hs].
  unfold MessageServiceClient.purge_queues, MessageServiceClient.require_stub.
  rewrite Hs. unfold bind, ret, try_except, raise. cbv beta iota.
  split.
  - intros err Hnet. rewrite rpc_failed with (err := err) by done.
    cbv beta iota. rewrite log_rpc_error_run. reflexivity.
  - intros Hnet. rewrite rpc_delivered by done. rewrite PurgeQueues_run.
    eexists. split; [reflexivity|].
    unfold message_registry, job_registry. cbn [w_proc set_proc set_log log snd].
    rewrite !purge_both by done. done.
Qed.

Lemma purge_queues_outcomes_witness :
  exists w',
    MessageServiceClient.purge_queues
      (MessageServiceClient.connected "127.0.0.1" 5558 false)
      (quiet_world sample_uuids [])
    = (Raise (AttributeError "status"), w') /\
    _data_queue (message_registry w') = ∅ /\
    _data_queue (job_registry w') = ∅ /\
    pb_getattr (Status "uuid!" true) "result" = Some (VBool true).
Proof.
  refine (proj2 (purge_queues_outcomes
    (MessageServiceClient.connected "127.0.0.1" 5558 false)
    (quiet_world sample_uuids []) _) _).
  - eexists. reflexivity.
  - reflexivity.
Defined.

(** ** The driver *)

Lemma put_message_failed (c : MessageServiceClient.t) (target : option string)
    (identity msg_id control command data info stderr stdout : option string)
    (err : RpcStatus) (w : World) :
  is_Some (MessageServiceClient.stub c) ->
  hd None (w_net w) = Some err ->
  exists w',
    MessageServiceClient.put_message c target identity msg_id control command
      data info stderr stdout w = (Return false, w') /\
    w_proc w' = w_proc w.
Proof.
  intros [s Hs] Hnet.
  unfold MessageServiceClient.put_message, MessageServiceClient.require_stub.
  rewrite Hs. unfold bind, ret, try_except, raise. cbv beta iota.
  unfold log at 1. cbv beta iota.
  rewrite rpc_failed with (err := err) by done. cbv beta iota.
  rewrite log_rpc_error_run. eexists. split; reflexivity.
Qed.

Lemma put_job_failed (c : MessageServiceClient.t) (target : option string)
    (identity msg_id control command data info stderr stdout : option string)
    (err : RpcStatus) (w : World) :
  is_Some (MessageServiceClient.stub c) ->
  hd None (w_net w) = Some err ->
  exists w',
    MessageServiceClient.put_job c target identity msg_id control command
      data info stderr stdout w = (Return false, w') /\
    w_proc w' = w_proc w.
Proof.
  intros [s Hs] Hnet.
  unfold MessageServiceClient.put_job, MessageServiceClient.require_stub.
  rewrite Hs. unfold bind, ret, try_except, raise. cbv beta iota.
  unfold log at 1. cbv beta iota.
  rewrite rpc_failed with (err := err) by done. cbv beta iota.
  rewrite log_rpc_error_run. eexists. split; reflexivity.
Qed.

(** C3: when the transport fails under [backend_send] or [job_send], the
    client's put absorbs the error and answers [False]; the driver drops that
    answer and returns [True], although no registry has changed. *)
Theorem send_returns_true_on_transport_failure (self : Driver.t)
    (c : MessageServiceClient.t) (kwargs : gmap string (option string))
    (err : RpcStatus) (w : World) :
  Driver._client self = Some c ->
  is_Some (MessageServiceClient.stub c) ->
  hd None (w_net w) = Some err ->
  (exists w',
      Driver.backend_send self kwargs w = (Return true, w') /\
      w_proc w' = w_proc w) /\
  (exists w',
      Driver.job_send self kwargs w = (Return true, w') /\
      w_proc w' = w_proc w).
Proof.
  intros Hc Hs Hnet. split.
  - unfold Driver.backend_send, Driver.client_method. rewrite Hc.
    destruct (put_message_failed c
      (Driver.kwargs_get_default kwargs "target"
         (Driver.kwargs_get_default kwargs "identity" (Some Driver._server_identity)))
      (Driver.kwargs_get_default kwargs "identity" (Some (Driver.identity self)))
      (Driver.kwargs_get kwargs "msg_id") (Driver.kwargs_get kwargs "control")
      (Driver.kwargs_get kwargs "command") (Driver.kwargs_get kwargs "data")
      (Driver.kwargs_get kwargs "info") (Driver.kwargs_get kwargs "stderr")
      (Driver.kwargs_get kwargs "stdout") err w Hs Hnet) as (w' & Hput & Hproc).
    exists w'. split; [|done].
    unfold bind, try_except, ret. cbv beta iota. rewrite Hput. reflexivity.
  - unfold Driver.job_send, Driver.client_method. rewrite Hc.
    destruct (put_job_failed c
      (Driver.kwargs_get_default kwargs "target"
         (Driver.kwargs_get_default kwargs "identity" (Some Driver._server_identity)))
      (Driver.kwargs_get_default kwargs "identity" (Some (Driver.identity self)))
      (Driver.kwargs_get kwargs "msg_id") (Driver.kwargs_get kwargs "control")
      (Driver.kwargs_get kwargs "command") (Driver.kwargs_get kwargs "data")
      (Driver.kwargs_get kwargs "info") (Driver.kwargs_get kwargs "stderr")
      (Driver.kwargs_get kwargs "stdout") err w Hs Hnet) as (w' & Hput & Hproc).
    exists w'. split; [|done].
    unfold bind, try_except, ret. cbv beta iota. rewrite Hput. reflexivity.
Qed.

Lemma send_returns_true_on_transport_failure_witness :
  exists w',
    Driver.backend_send agent_driver
      (<["identity" := Some "agent-1"]> (<["data" := Some "{}"]> ∅))
      (failing_world sample_uuids [] unavailable)
    = (Return true, w') /\
    w_proc w' = fresh_process.
Proof.
  refine (proj1 (send_returns_true_on_transport_failure agent_driver
    (MessageServiceClient.connected "127.0.0.1" 5558 false)
    (<["identity" := Some "agent-1"]> (<["data" := Some "{}"]> ∅))
    unavailable (failing_world sample_uuids [] unavailable) _ _ _)).
  - reflexivity.
  - eexists. reflexivity.
  - reflexivity.
Defined.



(** Each of the thousand values [r / 10000] lies in [0, 0.1). *)
Lemma jitter_in_range (r : Z) :
  (0 <= r < 1000)%Z ->
  SFleb (nearest_float 0) (Driver.jitter r) = true /\
  SFltb (Driver.jitter r) (literal 1 10) = true.
Proof.
  intros Hr.
  assert (Hall : forallb
            (fun n => SFleb (nearest_float 0) (Driver.jitter (Z.of_nat n))
                      && SFltb (Driver.jitter (Z.of_nat n)) (literal 1 10))
            (seq 0 1000) = true) by (vm_compute; reflexivity).
  rewrite forallb_forall in Hall.
  specialize (Hall (Z.to_nat r)).
  rewrite Z2Nat.id in Hall by lia.
  apply andb_prop. apply Hall. apply in_seq. lia.
Qed.

Lemma to_float_error (n : PyNumber) (e : exn) :
  to_float n = Raise e -> e = OverflowError.
Proof.
  destruct n as [z|f]; simpl; [|discriminate].
  destruct (is_infinity (nearest_float z)); [|discriminate].
  intros H. by inversion H.
Qed.

Lemma poll_sleep_polled (self : Driver.t) (interval constant : PyNumber)
    (w1 : World) :
  polled self interval constant false w1 (Driver.poll_sleep self interval constant w1).
Proof.
  unfold polled, Driver.poll_sleep, Driver.poll_base.
  destruct (to_float constant) as [c|e] eqn:Hc.
  - destruct (to_float interval) as [i|e] eqn:Hi.
    + unfold randrange, sleep, py_max. cbv beta iota.
      set (r := (0 + hd 0%Z (w_rand w1) `mod` (1000 - 0))%Z).
      assert (Hr : (0 <= r < 1000)%Z).
      { unfold r. pose proof (Z.mod_pos_bound (hd 0%Z (w_rand w1)) 1000 eq_refl).
        change (1000 - 0)%Z with 1000%Z. lia. }
      destruct (jitter_in_range r Hr) as [Hlo Hhi].
      change (Driver.jitter r)
        with (fdiv (nearest_float r) (nearest_float 10000)) in *.
      destruct (sleep_error _) as [e|] eqn:Herr.
      * eexists r, _. split; [exact Hr|]. cbv zeta.
        split; [exact Hlo|]. split; [exact Hhi|].
        rewrite Herr. split; reflexivity.
      * eexists r, _. split; [exact Hr|]. cbv zeta.
        split; [exact Hlo|]. split; [exact Hhi|].
        rewrite Herr. split; reflexivity.
    + by rewrite (to_float_error _ _ Hi).
  - rewrite (to_float_error _ _ Hc). by destruct (to_float interval).
Qed.




Lemma put_job_delivered (c : MessageServiceClient.t) (target : option string)
    (identity msg_id control command data info stderr stdout : option string)
    (w : World) :
  is_Some (MessageServiceClient.stub c) ->
  hd None (w_net w) = None ->
  exists w',
    MessageServiceClient.put_job c target identity msg_id control command
      data info stderr stdout w = (Return true, w') /\
    w_proc w'
    = snd (on_instance JobQueue
             (fun q => (tt, add_queue (default "" target)
                              (new_MessageData identity msg_id control command
                                 data info stderr stdout) q))
             (w_proc w)) /\
    w_uuid_next w' = w_uuid_next w.
Proof.
  intros [s Hs] Hnet.
  unfold MessageServiceClient.put_job, MessageServiceClient.require_stub.
  rewrite Hs. unfold bind, ret, try_except, raise. cbv beta iota.
  unfold log at 1. cbv beta iota.
  rewrite rpc_delivered by done. rewrite PutJob_run.
  eexists. split; [reflexivity|]. split; reflexivity.
Qed.

Lemma job_send_delivered (self : Driver.t) (c : MessageServiceClient.t)
    (kwargs : gmap string (option string)) (w : World) :
  Driver._client self = Some c ->
  is_Some (MessageServiceClient.stub c) ->
  hd None (w_net w) = None ->
  exists w',
    Driver.job_send self kwargs w = (Return true, w') /\
    w_proc w'
    = snd (on_instance JobQueue
             (fun q =>
                (tt, add_queue
                       (default ""
                          (Driver.kwargs_get_default kwargs "target"
                             (Driver.kwargs_get_default kwargs "identity"
                                (Some Driver._server_identity))))
                       (new_MessageData
                          (Driver.kwargs_get_default kwargs "identity"
                             (Some (Driver.identity self)))
                          (Driver.kwargs_get kwargs "msg_id")
                          (Driver.kwargs_get kwargs "control")
                          (Driver.kwargs_get kwargs "command")
                          (Driver.kwargs_get kwargs "data")
                          (Driver.kwargs_get kwargs "info")
                          (Driver.kwargs_get kwargs "stderr")
                          (Driver.kwargs_get kwargs "stdout")) q))
             (w_proc w)) /\
    w_uuid_next w' = w_uuid_next w.
Proof.
  intros Hc Hs Hnet.
  unfold Driver.job_send, Driver.client_method. rewrite Hc.
  edestruct put_job_delivered as (w' & Hput & Hproc & Hnext); [exact Hs|exact Hnet|].
  exists w'. split; [|split; [exact Hproc|exact Hnext]].
  unfold bind, try_except, ret. cbv beta iota. rewrite Hput. reflexivity.
Qed.

(** C1, as the code has it: [heartbeat_send] draws a new id, and with the
    client connected and the call delivered it returns [True] having put the
    heartbeat envelope on the job channel: last in the job registry's queue
    of the reserved identity [DIRECTORD_SERVER], with the driver's identity
    as sender, the heartbeat-notice control code, the new id as [msg_id], and
    as data the JSON text of [job_id], [version], [host_uptime],
    [agent_uptime], [machine_id] and [driver].  The message registry is left
    as it was. *)
Theorem heartbeat_is_put_on_job_channel (self : Driver.t)
    (c : MessageServiceClient.t) (host_uptime agent_uptime version driver : Json)
    (w : World) :
  Driver._client self = Some c ->
  is_Some (MessageServiceClient.stub c) ->
  hd None (w_net w) = None ->
  served (w_proc w) ->
  let job_id := w_uuids w (w_uuid_next w) in
  let envelope :=
    heartbeat_envelope self job_id host_uptime agent_uptime version driver in
  exists w',
    Driver.heartbeat_send self host_uptime agent_uptime version driver w
    = (Return true, w') /\
    queue_contents (job_registry w') "DIRECTORD_SERVER"
    = queue_contents (job_registry w) "DIRECTORD_SERVER" ++ [envelope] /\
    message_registry w' = message_registry w /\
    w_uuid_next w' = S (w_uuid_next w) /\
    md_identity envelope = Driver.identity self /\
    md_control envelope = Driver.heartbeat_notice self /\
    md_msg_id envelope = job_id /\
    md_data envelope
    = dumps (JObj [("job_id", JStr job_id); ("version", version);
                   ("host_uptime", host_uptime); ("agent_uptime", agent_uptime);
                   ("machine_id", Driver.machine_id self); ("driver", driver)]).
Proof.
  intros Hc Hs Hnet Hserved job_id envelope.
  pose proof (served_base_unset _ Hserved) as Hbase.
  unfold Driver.heartbeat_send, bind, get_uuid, log. cbv beta iota.
  match goal with
  | |- context [Driver.job_send self ?kw ?w1] =>
      destruct (job_send_delivered self c kw w1 Hc Hs Hnet)
        as (w' & Hsend & Hproc & Hnext)
  end.
  exists w'. split; [exact Hsend|].
  cbn [w_proc w_uuid_next] in Hproc, Hnext.
  unfold job_registry, message_registry. rewrite Hproc.
  split; [|split; [|split; [exact Hnext|repeat split]]].
  - rewrite instance_on_instance. cbn [snd].
    change (default "" _) with "DIRECTORD_SERVER".
    change (new_MessageData _ _ _ _ _ _ _ _) with envelope.
    apply add_queue_contents.
  - by apply on_instance_other.
Qed.

Lemma heartbeat_is_put_on_job_channel_witness :
  let w := quiet_world sample_uuids [] in
  exists w',
    Driver.heartbeat_send agent_driver (JStr "3 days") (JStr "1 hour")
      (JStr "0.12.0") JNull w
    = (Return true, w') /\
    queue_contents (job_registry w') "DIRECTORD_SERVER"
    = [heartbeat_envelope agent_driver "job-0" (JStr "3 days") (JStr "1 hour")
         (JStr "0.12.0") JNull].
Proof.
  intros w.
  destruct (heartbeat_is_put_on_job_channel agent_driver
    (MessageServiceClient.connected "127.0.0.1" 5558 false)
    (JStr "3 days") (JStr "1 hour") (JStr "0.12.0") JNull w)
    as (w' & Hrun & Hqueue & _).
  - reflexivity.
  - eexists. reflexivity.
  - reflexivity.
  - exists message_truth, [], w. split; reflexivity.
  - exists w'. split; [exact Hrun|exact Hqueue].
Defined.

(** C1 as stated fails: the heartbeat of a connected agent is not put on the
    message channel; the message registry's queue of [DIRECTORD_SERVER] does
    not receive it. *)
Lemma heartbeat_not_on_message_channel :
  ~ enqueues MessageQueue "DIRECTORD_SERVER"
      (heartbeat_envelope agent_driver "job-0" (JStr "3 days") (JStr "1 hour")
         (JStr "0.12.0") JNull)
      (Driver.heartbeat_send agent_driver (JStr "3 days") (JStr "1 hour")
         (JStr "0.12.0") JNull)
      (quiet_world sample_uuids []).
Proof.
  unfold enqueues. intros H. vm_compute in H. discriminate H.
Qed.

(** * Further properties of the code *)

(** ** Queues: polling, draining, targets *)

(** [check_queue] is true exactly when an envelope waits for the target: it is
    true right after [add_queue], and on a target that had nothing waiting it
    is false again once the envelope just added has been taken. *)
Theorem check_queue_follows_contents (t : string) (e : MessageData) (q : QueueBase) :
  (check_queue t q = true <-> queue_contents q t <> []) /\
  check_queue t (add_queue t e q) = true /\
  (check_queue t q = false ->
   check_queue t (snd (get_from_queue t (add_queue t e q))) = false).
Proof.
  split; [|split].
  - rewrite check_queue_contents.
    destruct (queue_contents q t) as [|x l]; simpl; split; congruence.
  - rewrite check_queue_contents, add_queue_contents.
    destruct (queue_contents q t); reflexivity.
  - rewrite !check_queue_contents. intros H.
    assert (Hq : queue_contents q t = []).
    { destruct (queue_contents q t); [done | discriminate H]. }
    assert (Ha : queue_contents (add_queue t e q) t = [e]).
    { by rewrite add_queue_contents, Hq. }
    rewrite (get_from_queue_cons t _ e [] Ha). unfold queue_contents. simpl.
    by rewrite lookup_insert_eq.
Qed.

Lemma check_queue_follows_contents_witness :
  check_queue "agent-1"
    (snd (get_from_queue "agent-1" (add_queue "agent-1" empty_MessageData _setup)))
  = false.
Proof.
  exact (proj2 (proj2 (check_queue_follows_contents "agent-1" empty_MessageData _setup))
           eq_refl).
Defined.

Lemma get_from_queue_unchecked (t : string) (q : QueueBase) :
  check_queue t q = false -> get_from_queue t q = (None, q).
Proof.
  rewrite check_queue_contents. intros H. apply get_from_queue_nil.
  destruct (queue_contents q t); [done | discriminate H].
Qed.

(** [get_from_queue] returns [None] exactly when [check_queue] is false for
    the target, whether the target is unknown or its queue was emptied, and
    it then leaves the registry exactly as it was. *)
Theorem get_from_queue_without_data (t : string) (q : QueueBase) :
  (check_queue t q = false -> get_from_queue t q = (None, q)) /\
  (fst (get_from_queue t q) = None -> check_queue t q = false).
Proof.
  split; [apply get_from_queue_unchecked|].
  unfold get_from_queue, check_queue.
  destruct (_data_queue q !! t) as [[|x rest]|]; simpl; try done.
Qed.

Lemma get_from_queue_without_data_witness :
  get_from_queue "nobody" (add_queue "agent-1" empty_MessageData _setup)
  = (None, add_queue "agent-1" empty_MessageData _setup).
Proof.
  exact (proj1 (get_from_queue_without_data "nobody"
           (add_queue "agent-1" empty_MessageData _setup)) eq_refl).
Defined.

Lemma add_all_contents (t : string) (es : list MessageData) :
  forall q : QueueBase,
    queue_contents (add_all t es q) t = queue_contents q t ++ es.
Proof.
  induction es as [|e es IH]; intros q; simpl.
  - by rewrite app_nil_r.
  - rewrite IH, add_queue_contents. by rewrite <- app_assoc.
Qed.

Lemma drain_contents (t : string) (n : nat) :
  forall q : QueueBase,
    fst (drain t n q)
    = (Some <$> take n (queue_contents q t))
      ++ replicate (n - length (queue_contents q t)) None /\
    queue_contents (snd (drain t n q)) t = drop n (queue_contents q t).
Proof.
  induction n as [|n IH]; intros q; simpl.
  - done.
  - destruct (queue_contents q t) as [|x rest] eqn:Hq.
    + rewrite (get_from_queue_nil t q Hq).
      destruct (drain t n q) as [xs q'] eqn:Hd. simpl.
      destruct (IH q) as [IH1 IH2]. rewrite Hd, Hq in IH1, IH2. simpl in *.
      rewrite IH1, IH2, take_nil, drop_nil, Nat.sub_0_r. done.
    + rewrite (get_from_queue_cons t q x rest Hq).
      set (q1 := {| _data_queue := <[t:=rest]> (_data_queue q) |}).
      assert (Hq1 : queue_contents q1 t = rest).
      { unfold queue_contents, q1. simpl. by rewrite lookup_insert_eq. }
      destruct (drain t n q1) as [xs q'] eqn:Hd. simpl.
      destruct (IH q1) as [IH1 IH2]. rewrite Hd, Hq1 in IH1, IH2. simpl in *.
      by rewrite IH1, IH2.
Qed.

(** Whatever waits for a target and whatever is then added with [add_queue],
    repeated [get_from_queue] calls hand the envelopes back in arrival order:
    [n] calls return the first [n] of them, then [None] for each call made
    after the queue ran dry, and leave the rest waiting. *)
Theorem drain_returns_arrival_order (t : string) (es : list MessageData)
    (n : nat) (q : QueueBase) :
  let waiting := queue_contents q t ++ es in
  fst (drain t n (add_all t es q))
  = (Some <$> take n waiting) ++ replicate (n - length waiting) None /\
  queue_contents (snd (drain t n (add_all t es q))) t = drop n waiting.
Proof.
  intros waiting. subst waiting. rewrite <- add_all_contents.
  apply drain_contents.
Qed.

(** The targets [get_stats] lists: [add_queue] adds its target and no other,
    [get_from_queue] never removes one (an emptied queue stays listed), and
    only [purge_queue] drops them, all at once. *)
Theorem get_stats_targets (t : string) (e : MessageData) (q : QueueBase) :
  get_stats (add_queue t e q) = {[t]} ∪ get_stats q /\
  get_stats (snd (get_from_queue t q)) = get_stats q /\
  get_stats (snd (purge_queue q)) = ∅.
Proof.
  unfold get_stats. split; [|split].
  - rewrite add_queue_data. apply dom_insert_L.
  - unfold get_from_queue.
    destruct (_data_queue q !! t) as [[|x rest]|] eqn:Hq; simpl; try done.
    rewrite dom_insert_L.
    apply elem_of_dom_2 in Hq. apply subseteq_union_1_L.
    by apply singleton_subseteq_l.
  - simpl. apply dom_empty_L.
Qed.

(** ** The singletons and the handlers *)

(** [_instance] is looked up through the class hierarchy: once
    [QueueBase.instance()] itself has created an object, and as long as
    [MessageQueue] and [JobQueue] have not been assigned their own, both
    resolve to that one object, so an envelope put with [PutMessage] is what
    [GetJob] finds. *)
Theorem base_instance_is_shared (truthy : MessageData -> bool) (t : string)
    (d : MessageData) (q0 : QueueBase) (w : World) :
  QueueBase_instance (w_proc w) = Some q0 ->
  MessageQueue_instance (w_proc w) = None ->
  JobQueue_instance (w_proc w) = None ->
  let w1 := snd (MessageServiceServicer.PutMessage (PutMessageRequest t d) w) in
  job_registry w1 = add_queue t d q0 /\
  message_registry w1 = job_registry w1 /\
  (queue_contents q0 t = [] ->
   fst (MessageServiceServicer.GetJob truthy (GetJobRequest t) w1)
   = Return (JobResponse "uuid!" (truthy d) t (if truthy d then Some d else None))).
Proof.
  intros Hb Hm Hj w1.
  assert (H1 : w_proc w1 = set_instance QueueBaseClass (add_queue t d q0) (w_proc w)).
  { unfold w1. rewrite PutMessage_run. cbn [snd w_proc set_proc set_log].
    unfold on_instance, instance, holder. cbn [own_instance].
    rewrite Hm, Hb. cbn [snd own_instance]. rewrite Hb. reflexivity. }
  assert (Hjob : job_registry w1 = add_queue t d q0).
  { unfold job_registry. rewrite H1. unfold instance, holder.
    destruct (w_proc w) as [b m j]. simpl in *. by rewrite Hj. }
  split; [exact Hjob|]. split.
  - rewrite Hjob. unfold message_registry. rewrite H1. unfold instance, holder.
    destruct (w_proc w) as [b m j]. simpl in *. by rewrite Hm.
  - intros Hq. rewrite GetJob_run. cbn [fst]. rewrite on_instance_result.
    fold (job_registry w1). rewrite Hjob.
    assert (Ha : queue_contents (add_queue t d q0) t = [d]).
    { by rewrite add_queue_contents, Hq. }
    rewrite (get_from_queue_cons t _ d [] Ha). reflexivity.
Qed.

Lemma base_instance_is_shared_witness :
  let started :=
    set_proc (snd (on_instance QueueBaseClass (fun q => (tt, q)) fresh_process))
      (quiet_world sample_uuids []) in
  let d := new_MessageData (Some "a") (Some "1") None None None None None None in
  let w1 := snd (MessageServiceServicer.PutMessage (PutMessageRequest "agent-1" d) started) in
  fst (MessageServiceServicer.GetJob message_truth (GetJobRequest "agent-1") w1)
  = Return (JobResponse "uuid!" true "agent-1" (Some d)).
Proof.
  intros started d w1.
  exact (proj2 (proj2 (base_instance_is_shared message_truth "agent-1" d _setup
           started eq_refl eq_refl eq_refl)) eq_refl).
Defined.

(** A put followed by a get on a target with nothing waiting: [PutMessage]
    answers with a successful [Status], and the next [GetMessage] returns that
    very envelope with status true (for an envelope Python counts as true)
    and leaves the queue empty again; the same for [PutJob] and [GetJob]. *)
Theorem put_then_get_returns_envelope (truthy : MessageData -> bool) (t : string)
    (d : MessageData) (w : World) :
  truthy d = true ->
  (queue_contents (message_registry w) t = [] ->
   exists w1 w2,
     MessageServiceServicer.PutMessage (PutMessageRequest t d) w
     = (Return (Status "uuid!" true), w1) /\
     MessageServiceServicer.GetMessage truthy (GetMessageRequest t) w1
     = (Return (MessageResponse "uuid!" true t (Some d)), w2) /\
     queue_contents (message_registry w2) t = []) /\
  (queue_contents (job_registry w) t = [] ->
   exists w1 w2,
     MessageServiceServicer.PutJob (PutJobRequest t d) w
     = (Return (Status "uuid!" true), w1) /\
     MessageServiceServicer.GetJob truthy (GetJobRequest t) w1
     = (Return (JobResponse "uuid!" true t (Some d)), w2) /\
     queue_contents (job_registry w2) t = []).
Proof.
  intros Htrue. split; intros Hq.
  - eexists _, _. split; [apply PutMessage_run|].
    assert (Ha : queue_contents
              (instance MessageQueue
                 (snd (on_instance MessageQueue (fun q => (tt, add_queue t d q)) (w_proc w))))
              t = [d]).
    { rewrite instance_on_instance. cbn [snd].
      rewrite add_queue_contents. unfold message_registry in Hq. by rewrite Hq. }
    split.
    + rewrite GetMessage_run. cbn [w_proc set_proc set_log].
      rewrite on_instance_result, (get_from_queue_cons t _ d [] Ha).
      cbn [fst py_truth]. rewrite Htrue. reflexivity.
    + unfold message_registry. cbn [w_proc set_proc set_log].
      rewrite instance_on_instance, (get_from_queue_cons t _ d [] Ha).
      unfold queue_contents. cbn [snd _data_queue]. by rewrite lookup_insert_eq.
  - eexists _, _. split; [apply PutJob_run|].
    assert (Ha : queue_contents
              (instance JobQueue
                 (snd (on_instance JobQueue (fun q => (tt, add_queue t d q)) (w_proc w))))
              t = [d]).
    { rewrite instance_on_instance. cbn [snd].
      rewrite add_queue_contents. unfold job_registry in Hq. by rewrite Hq. }
    split.
    + rewrite GetJob_run. cbn [w_proc set_proc set_log].
      rewrite on_instance_result, (get_from_queue_cons t _ d [] Ha).
      cbn [fst py_truth]. rewrite Htrue. reflexivity.
    + unfold job_registry. cbn [w_proc set_proc set_log].
      rewrite instance_on_instance, (get_from_queue_cons t _ d [] Ha).
      unfold queue_contents. cbn [snd _data_queue]. by rewrite lookup_insert_eq.
Qed.

Lemma put_then_get_returns_envelope_witness :
  let d := new_MessageData (Some "a") (Some "1") None None (Some "{}") None None None in
  exists w1 w2,
    MessageServiceServicer.PutMessage (PutMessageRequest "agent-1" d)
      (quiet_world sample_uuids [])
    = (Return (Status "uuid!" true), w1) /\
    MessageServiceServicer.GetMessage message_truth (GetMessageRequest "agent-1") w1
    = (Return (MessageResponse "uuid!" true "agent-1" (Some d)), w2) /\
    queue_contents (message_registry w2) "agent-1" = [].
Proof.
  intros d.
  exact (proj1 (put_then_get_returns_envelope message_truth "agent-1" d
           (quiet_world sample_uuids []) eq_refl) eq_refl).
Defined.

(** ** The client over a working or a failing transport *)

(** The client's puts and checks absorb a transport error: [put_message],
    [put_job], [message_check] and [job_check] log it and return [False]
    instead of raising, and the server is not reached. *)
Theorem put_and_check_absorb_transport_error (self : MessageServiceClient.t)
    (target : string) (put_target : option string)
    (identity msg_id control command data info stderr stdout : option string)
    (err : RpcStatus) (w : World) :
  is_Some (MessageServiceClient.stub self) ->
  hd None (w_net w) = Some err ->
  let envelope :=
    new_MessageData identity msg_id control command data info stderr stdout in
  MessageServiceClient.put_message self put_target identity msg_id control
    command data info stderr stdout w
  = (Return false,
     set_log (w_log w
              ++ [mkLog DEBUG "put_message: request %s"
                    [AMsg (PutMessageRequest (default "" put_target) envelope)]]
              ++ rpc_error_records "put_message" err) (pop_net w)) /\
  MessageServiceClient.put_job self put_target identity msg_id control
    command data info stderr stdout w
  = (Return false,
     set_log (w_log w
              ++ [mkLog DEBUG "put_job: request %s"
                    [AMsg (PutJobRequest (default "" put_target) envelope)]]
              ++ rpc_error_records "put_job" err) (pop_net w)) /\
  MessageServiceClient.message_check self target w
  = (Return false,
     set_log (w_log w ++ rpc_error_records "message_check" err) (pop_net w)) /\
  MessageServiceClient.job_check self target w
  = (Return false,
     set_log (w_log w ++ rpc_error_records "job_check" err) (pop_net w)).
Proof.
  intros [s Hs] Hnet envelope. subst envelope.
  unfold MessageServiceClient.put_message, MessageServiceClient.put_job,
    MessageServiceClient.message_check, MessageServiceClient.job_check,
    MessageServiceClient.require_stub.
  rewrite Hs. unfold bind, ret, try_except, raise. cbv beta iota.
  unfold log. cbv beta iota.
  rewrite !rpc_failed with (err := err) by done. cbv beta iota.
  rewrite !log_rpc_error_run.
  unfold set_log, pop_net. cbn. rewrite <- !app_assoc. done.
Qed.

Lemma put_and_check_absorb_transport_error_witness :
  fst (MessageServiceClient.message_check
         (MessageServiceClient.connected "127.0.0.1" 5558 false) "agent-1"
         (failing_world sample_uuids [] unavailable))
  = Return false.
Proof.
  refine (f_equal fst (proj1 (proj2 (proj2
    (put_and_check_absorb_transport_error
       (MessageServiceClient.connected "127.0.0.1" 5558 false) "agent-1"
       None None None None None None None None None unavailable
       (failing_world sample_uuids [] unavailable) _ _))))).
  - eexists. reflexivity.
  - reflexivity.
Defined.

Lemma put_message_delivered (c : MessageServiceClient.t) (target : option string)
    (identity msg_id control command data info stderr stdout : option string)
    (w : World) :
  is_Some (MessageServiceClient.stub c) ->
  hd None (w_net w) = None ->
  exists w',
    MessageServiceClient.put_message c target identity msg_id control command
      data info stderr stdout w = (Return true, w') /\
    w_proc w'
    = snd (on_instance MessageQueue
             (fun q => (tt, add_queue (default "" target)
                              (new_MessageData identity msg_id control command
                                 data info stderr stdout) q))
             (w_proc w)) /\
    w_net w' = tl (w_net w).
Proof.
  intros [s Hs] Hnet.
  unfold MessageServiceClient.put_message, MessageServiceClient.require_stub.
  rewrite Hs. unfold bind, ret, try_except, raise. cbv beta iota.
  unfold log at 1. cbv beta iota.
  rewrite rpc_delivered by done. rewrite PutMessage_run.
  eexists. split; [reflexivity|]. split; reflexivity.
Qed.

Lemma put_job_delivered_net (c : MessageServiceClient.t) (target : option string)
    (identity msg_id control command data info stderr stdout : option string)
    (w : World) :
  is_Some (MessageServiceClient.stub c) ->
  hd None (w_net w) = None ->
  exists w',
    MessageServiceClient.put_job c target identity msg_id control command
      data info stderr stdout w = (Return true, w') /\
    w_proc w'
    = snd (on_instance JobQueue
             (fun q => (tt, add_queue (default "" target)
                              (new_MessageData identity msg_id control command
                                 data info stderr stdout) q))
             (w_proc w)) /\
    w_net w' = tl (w_net w).
Proof.
  intros [s Hs] Hnet.
  unfold MessageServiceClient.put_job, MessageServiceClient.require_stub.
  rewrite Hs. unfold bind, ret, try_except, raise. cbv beta iota.
  unfold log at 1. cbv beta iota.
  rewrite rpc_delivered by done. rewrite PutJob_run.
  eexists. split; [reflexivity|]. split; reflexivity.
Qed.

Lemma truthy_result (truthy : MessageData -> bool) (o : option MessageData) :
  (if py_truth truthy o then Some (default empty_MessageData o) else None)
  = (if py_truth truthy o then o else None).
Proof. destruct o as [d|]; simpl; [|done]. by destruct (truthy d). Qed.

Lemma get_message_delivered (truthy : MessageData -> bool)
    (c : MessageServiceClient.t) (t : string) (w : World) :
  is_Some (MessageServiceClient.stub c) ->
  hd None (w_net w) = None ->
  let r := on_instance MessageQueue (get_from_queue t) (w_proc w) in
  exists w',
    MessageServiceClient.get_message truthy c t w
    = (Return (t, if py_truth truthy (fst r) then fst r else None), w') /\
    w_proc w' = snd r /\ w_net w' = tl (w_net w).
Proof.
  intros [s Hs] Hnet r. subst r.
  unfold MessageServiceClient.get_message, MessageServiceClient.require_stub.
  rewrite Hs. unfold bind, ret, try_except, raise. cbv beta iota.
  rewrite rpc_delivered by done. rewrite GetMessage_run.
  cbn [w_proc pop_net]. rewrite <- truthy_result.
  destruct (py_truth truthy _); eexists; (split; [reflexivity|]); split; reflexivity.
Qed.

Lemma get_job_delivered (truthy : MessageData -> bool)
    (c : MessageServiceClient.t) (t : string) (w : World) :
  is_Some (MessageServiceClient.stub c) ->
  hd None (w_net w) = None ->
  let r := on_instance JobQueue (get_from_queue t) (w_proc w) in
  exists w',
    MessageServiceClient.get_job truthy c t w
    = (Return (t, if py_truth truthy (fst r) then fst r else None), w') /\
    w_proc w' = snd r /\ w_net w' = tl (w_net w).
Proof.
  intros [s Hs] Hnet r. subst r.
  unfold MessageServiceClient.get_job, MessageServiceClient.require_stub.
  rewrite Hs. unfold bind, ret, try_except, raise. cbv beta iota.
  rewrite rpc_delivered by done. rewrite GetJob_run.
  cbn [w_proc pop_net]. rewrite <- truthy_result.
  destruct (py_truth truthy _); eexists; (split; [reflexivity|]); split; reflexivity.
Qed.

(** Through the client, over a transport that delivers: [put_message] returns
    [True], and the next [get_message] for the same target, which had nothing
    waiting, returns the target with the envelope built from the fields given
    (a field passed as [None] reading back as the empty string) and leaves
    the queue empty; the same for [put_job] and [get_job]. *)
Theorem client_put_then_get (truthy : MessageData -> bool)
    (self : MessageServiceClient.t) (t : string)
    (identity msg_id control command data info stderr stdout : option string)
    (w : World) :
  let envelope :=
    new_MessageData identity msg_id control command data info stderr stdout in
  is_Some (MessageServiceClient.stub self) ->
  hd None (w_net w) = None ->
  hd None (tl (w_net w)) = None ->
  truthy envelope = true ->
  (queue_contents (message_registry w) t = [] ->
   exists w1 w2,
     MessageServiceClient.put_message self (Some t) identity msg_id control
       command data info stderr stdout w = (Return true, w1) /\
     MessageServiceClient.get_message truthy self t w1
     = (Return (t, Some envelope), w2) /\
     queue_contents (message_registry w2) t = []) /\
  (queue_contents (job_registry w) t = [] ->
   exists w1 w2,
     MessageServiceClient.put_job self (Some t) identity msg_id control
       command data info stderr stdout w = (Return true, w1) /\
     MessageServiceClient.get_job truthy self t w1
     = (Return (t, Some envelope), w2) /\
     queue_contents (job_registry w2) t = []).
Proof.
  intros envelope Hs Hnet Hnet2 Htrue. split; intros Hq.
  - destruct (put_message_delivered self (Some t) identity msg_id control command
                data info stderr stdout w Hs Hnet) as (w1 & Hput & Hp1 & Hn1).
    rewrite <- Hn1 in Hnet2.
    destruct (get_message_delivered truthy self t w1 Hs Hnet2) as (w2 & Hget & Hp2 & _).
    assert (Ha : queue_contents (instance MessageQueue (w_proc w1)) t = [envelope]).
    { rewrite Hp1, instance_on_instance. cbn [snd default].
      rewrite add_queue_contents. unfold message_registry in Hq. by rewrite Hq. }
    rewrite on_instance_result, (get_from_queue_cons t _ envelope [] Ha) in Hget.
    cbn [fst py_truth] in Hget. rewrite Htrue in Hget.
    exists w1, w2. split; [exact Hput|]. split; [exact Hget|].
    unfold message_registry. rewrite Hp2, instance_on_instance.
    rewrite (get_from_queue_cons t _ envelope [] Ha).
    unfold queue_contents. cbn [snd _data_queue]. by rewrite lookup_insert_eq.
  - destruct (put_job_delivered_net self (Some t) identity msg_id control command
                data info stderr stdout w Hs Hnet) as (w1 & Hput & Hp1 & Hn1).
    rewrite <- Hn1 in Hnet2.
    destruct (get_job_delivered truthy self t w1 Hs Hnet2) as (w2 & Hget & Hp2 & _).
    assert (Ha : queue_contents (instance JobQueue (w_proc w1)) t = [envelope]).
    { rewrite Hp1, instance_on_instance. cbn [snd default].
      rewrite add_queue_contents. unfold job_registry in Hq. by rewrite Hq. }
    rewrite on_instance_result, (get_from_queue_cons t _ envelope [] Ha) in Hget.
    cbn [fst py_truth] in Hget. rewrite Htrue in Hget.
    exists w1, w2. split; [exact Hput|]. split; [exact Hget|].
    unfold job_registry. rewrite Hp2, instance_on_instance.
    rewrite (get_from_queue_cons t _ envelope [] Ha).
    unfold queue_contents. cbn [snd _data_queue]. by rewrite lookup_insert_eq.
Qed.

Lemma client_put_then_get_witness :
  let c := MessageServiceClient.connected "127.0.0.1" 5558 false in
  let envelope :=
    new_MessageData (Some "a") (Some "123") (Some "c") (Some "run")
      (Some "{}") None None None in
  exists w1 w2,
    MessageServiceClient.put_message c (Some "agent-1") (Some "a") (Some "123")
      (Some "c") (Some "run") (Some "{}") None None None
      (quiet_world sample_uuids []) = (Return true, w1) /\
    MessageServiceClient.get_message message_truth c "agent-1" w1
    = (Return ("agent-1", Some envelope), w2) /\
    queue_contents (message_registry w2) "agent-1" = [].
Proof.
  intros c envelope.
  refine (proj1 (client_put_then_get message_truth c "agent-1" (Some "a")
    (Some "123") (Some "c") (Some "run") (Some "{}") None None None
    (quiet_world sample_uuids []) _ _ _ _) _).
  - eexists. reflexivity.
  - reflexivity.
  - reflexivity.
  - reflexivity.
  - reflexivity.
Defined.

(** Over a transport that delivers, [get_message] and [get_job] on a target
    with nothing waiting return the target with no envelope, and do not
    change what the registry holds. *)
Theorem client_get_without_data (truthy : MessageData -> bool)
    (self : MessageServiceClient.t) (t : string) (w : World) :
  is_Some (MessageServiceClient.stub self) ->
  hd None (w_net w) = None ->
  (check_queue t (message_registry w) = false ->
   exists w',
     MessageServiceClient.get_message truthy self t w = (Return (t, None), w') /\
     message_registry w' = message_registry w) /\
  (check_queue t (job_registry w) = false ->
   exists w',
     MessageServiceClient.get_job truthy self t w = (Return (t, None), w') /\
     job_registry w' = job_registry w).
Proof.
  intros Hs Hnet. split; intros Hq.
  - destruct (get_message_delivered truthy self t w Hs Hnet) as (w' & Hget & Hp & _).
    rewrite on_instance_result in Hget.
    unfold message_registry in *.
    rewrite (get_from_queue_unchecked t _ Hq) in Hget.
    exists w'. split; [exact Hget|].
    by rewrite Hp, instance_on_instance, (get_from_queue_unchecked t _ Hq).
  - destruct (get_job_delivered truthy self t w Hs Hnet) as (w' & Hget & Hp & _).
    rewrite on_instance_result in Hget.
    unfold job_registry in *.
    rewrite (get_from_queue_unchecked t _ Hq) in Hget.
    exists w'. split; [exact Hget|].
    by rewrite Hp, instance_on_instance, (get_from_queue_unchecked t _ Hq).
Qed.

Lemma client_get_without_data_witness :
  exists w',
    MessageServiceClient.get_message message_truth
      (MessageServiceClient.connected "127.0.0.1" 5558 false) "agent-1"
      (quiet_world sample_uuids [])
    = (Return ("agent-1", None), w') /\
    message_registry w' = message_registry (quiet_world sample_uuids []).
Proof.
  refine (proj1 (client_get_without_data message_truth
    (MessageServiceClient.connected "127.0.0.1" 5558 false) "agent-1"
    (quiet_world sample_uuids []) _ _) _).
  - eexists. reflexivity.
  - reflexivity.
  - reflexivity.
Defined.

(** Over a transport that delivers, [message_check] and [job_check] return
    whether an envelope waits for the target in their registry, and leave that
    registry as it was. *)
Theorem client_check_reports_waiting (self : MessageServiceClient.t)
    (t : string) (w : World) :
  is_Some (MessageServiceClient.stub self) ->
  hd None (w_net w) = None ->
  (exists w',
      MessageServiceClient.message_check self t w
      = (Return (negb (bool_decide (queue_contents (message_registry w) t = []))), w') /\
      message_registry w' = message_registry w) /\
  (exists w',
      MessageServiceClient.job_check self t w
      = (Return (negb (bool_decide (queue_contents (job_registry w) t = []))), w') /\
      job_registry w' = job_registry w).
Proof.
  intros [s Hs] Hnet.
  unfold MessageServiceClient.message_check, MessageServiceClient.job_check,
    MessageServiceClient.require_stub.
  rewrite Hs. unfold bind, ret, try_except, raise. cbv beta iota.
  rewrite !rpc_delivered by done. rewrite MessageCheck_run, JobCheck_run.
  unfold message_registry, job_registry. split.
  - eexists. split.
    + rewrite <- check_queue_contents.
      change (w_proc (pop_net w)) with (w_proc w).
      rewrite on_instance_result. reflexivity.
    + cbn [w_proc set_proc set_log pop_net]. by rewrite instance_on_instance.
  - eexists. split.
    + rewrite <- check_queue_contents.
      change (w_proc (pop_net w)) with (w_proc w).
      rewrite on_instance_result. reflexivity.
    + cbn [w_proc set_proc set_log pop_net]. by rewrite instance_on_instance.
Qed.

Lemma client_check_reports_waiting_witness :
  let w := serve_all message_truth [CallPutMessage "agent-1" empty_MessageData]
             (quiet_world sample_uuids []) in
  exists w',
    MessageServiceClient.message_check
      (MessageServiceClient.connected "127.0.0.1" 5558 false) "agent-1" w
    = (Return true, w') /\
    message_registry w' = message_registry w.
Proof.
  intros w.
  refine (proj1 (client_check_reports_waiting
    (MessageServiceClient.connected "127.0.0.1" 5558 false) "agent-1" w _ _)).
  - eexists. reflexivity.
  - reflexivity.
Defined.

(** ** The driver: addressing, missing connection, receiving *)

Lemma backend_send_delivered (self : Driver.t) (c : MessageServiceClient.t)
    (kwargs : gmap string (option string)) (w : World) :
  Driver._client self = Some c ->
  is_Some (MessageServiceClient.stub c) ->
  hd None (w_net w) = None ->
  exists w',
    Driver.backend_send self kwargs w = (Return true, w') /\
    w_proc w'
    = snd (on_instance MessageQueue
             (fun q =>
                (tt, add_queue
                       (default ""
                          (Driver.kwargs_get_default kwargs "target"
                             (Driver.kwargs_get_default kwargs "identity"
                                (Some Driver._server_identity))))
                       (new_MessageData
                          (Driver.kwargs_get_default kwargs "identity"
                             (Some (Driver.identity self)))
                          (Driver.kwargs_get kwargs "msg_id")
                          (Driver.kwargs_get kwargs "control")
                          (Driver.kwargs_get kwargs "command")
                          (Driver.kwargs_get kwargs "data")
                          (Driver.kwargs_get kwargs "info")
                          (Driver.kwargs_get kwargs "stderr")
                          (Driver.kwargs_get kwargs "stdout")) q))
             (w_proc w)) /\
    w_net w' = tl (w_net w).
Proof.
  intros Hc Hs Hnet.
  unfold Driver.backend_send, Driver.client_method. rewrite Hc.
  edestruct put_message_delivered as (w' & Hput & Hproc & Hn); [exact Hs|exact Hnet|].
  exists w'. split; [|split; [exact Hproc|exact Hn]].
  unfold bind, try_except, ret. cbv beta iota. rewrite Hput. reflexivity.
Qed.

(** Where a send goes and whom it names: the target is the [target] keyword
    when given, else the [identity] keyword when given, else
    [DIRECTORD_SERVER]; the sender is the [identity] keyword when given, else
    the driver's own identity.  Over a transport that delivers,
    [backend_send] puts the envelope last in that target's queue of the
    message registry and [job_send] in that of the job registry, and both
    return [True]. *)
Theorem send_addressing (self : Driver.t) (c : MessageServiceClient.t)
    (kwargs : gmap string (option string)) (w : World) :
  Driver._client self = Some c ->
  is_Some (MessageServiceClient.stub c) ->
  hd None (w_net w) = None ->
  let target :=
    default ""
      (match kwargs !! "target" with
       | Some v => v
       | None =>
           match kwargs !! "identity" with
           | Some v => v
           | None => Some "DIRECTORD_SERVER"
           end
       end) in
  let sender :=
    match kwargs !! "identity" with
    | Some v => v
    | None => Some (Driver.identity self)
    end in
  let field (k : string) := default None (kwargs !! k) in
  let envelope :=
    new_MessageData sender (field "msg_id") (field "control") (field "command")
      (field "data") (field "info") (field "stderr") (field "stdout") in
  (exists w',
      Driver.backend_send self kwargs w = (Return true, w') /\
      queue_contents (message_registry w') target
      = queue_contents (message_registry w) target ++ [envelope]) /\
  (exists w',
      Driver.job_send self kwargs w = (Return true, w') /\
      queue_contents (job_registry w') target
      = queue_contents (job_registry w) target ++ [envelope]).
Proof.
  intros Hc Hs Hnet target sender field envelope. split.
  - destruct (backend_send_delivered self c kwargs w Hc Hs Hnet)
      as (w' & Hsend & Hproc & _).
    exists w'. split; [exact Hsend|].
    unfold message_registry. rewrite Hproc, instance_on_instance. cbn [snd].
    unfold Driver.kwargs_get_default, Driver.kwargs_get, Driver._server_identity.
    subst target sender envelope field.
    destruct (kwargs !! "target"), (kwargs !! "identity"); apply add_queue_contents.
  - destruct (job_send_delivered self c kwargs w Hc Hs Hnet)
      as (w' & Hsend & Hproc & _).
    exists w'. split; [exact Hsend|].
    unfold job_registry. rewrite Hproc, instance_on_instance. cbn [snd].
    unfold Driver.kwargs_get_default, Driver.kwargs_get, Driver._server_identity.
    subst target sender envelope field.
    destruct (kwargs !! "target"), (kwargs !! "identity"); apply add_queue_contents.
Qed.

Lemma send_addressing_witness :
  exists w',
    Driver.backend_send agent_driver (<["identity" := Some "agent-7"]> ∅)
      (quiet_world sample_uuids []) = (Return true, w') /\
    queue_contents (message_registry w') "agent-7"
    = [new_MessageData (Some "agent-7") None None None None None None None].
Proof.
  refine (proj1 (send_addressing agent_driver
    (MessageServiceClient.connected "127.0.0.1" 5558 false)
    (<["identity" := Some "agent-7"]> ∅) (quiet_world sample_uuids []) _ _ _)).
  - reflexivity.
  - eexists. reflexivity.
  - reflexivity.
Defined.

(** A send on a driver that holds no client (before [backend_init], after
    [backend_close]) raises [AttributeError], and a send through a client that
    was closed raises the client's "... request after close" exception; the
    driver logs either one as "Error putting message" and re-raises it, and
    nothing reaches the server. *)
Theorem send_without_connection (self : Driver.t)
    (kwargs : gmap string (option string)) (w : World) :
  let logged (e : exn) :=
    set_log (w_log w ++ [mkLog ERROR "Error putting message, %s" [AExn e]]) w in
  (Driver._client self = None ->
   Driver.backend_send self kwargs w
   = (Raise (AttributeError "put_message"), logged (AttributeError "put_message")) /\
   Driver.job_send self kwargs w
   = (Raise (AttributeError "put_job"), logged (AttributeError "put_job"))) /\
  (forall c : MessageServiceClient.t,
      Driver._client self = Some c ->
      MessageServiceClient.stub c = None ->
      Driver.backend_send self kwargs w
      = (Raise (Exception "Message request after close"),
         logged (Exception "Message request after close")) /\
      Driver.job_send self kwargs w
      = (Raise (Exception "Job request after close"),
         logged (Exception "Job request after close"))).
Proof.
  intros logged. subst logged. split.
  - intros Hc. unfold Driver.backend_send, Driver.job_send, Driver.client_method.
    rewrite Hc. split; reflexivity.
  - intros c Hc Hs.
    unfold Driver.backend_send, Driver.job_send, Driver.client_method.
    rewrite Hc. unfold bind, ret, try_except. cbv beta iota.
    unfold MessageServiceClient.put_message, MessageServiceClient.put_job,
      MessageServiceClient.require_stub, bind.
    rewrite Hs. split; reflexivity.
Qed.

Lemma send_without_connection_witness :
  fst (Driver.backend_send (Lifecycle.driver new_agent) ∅ (quiet_world sample_uuids []))
  = Raise (AttributeError "put_message").
Proof.
  exact (f_equal fst (proj1 (proj1 (send_without_connection
    (Lifecycle.driver new_agent) ∅ (quiet_world sample_uuids [])) eq_refl))).
Defined.

(** Receiving when nothing waits: over a transport that delivers,
    [backend_recv] and [job_recv] on a driver whose queue is empty raise
    [AttributeError] (the absent envelope has no [msg_id]) instead of returning
    a message, and leave the registry as it was; a receive has to be guarded
    by a check. *)
Theorem recv_without_data_raises (truthy : MessageData -> bool) (self : Driver.t)
    (c : MessageServiceClient.t) (w : World) :
  Driver._client self = Some c ->
  is_Some (MessageServiceClient.stub c) ->
  hd None (w_net w) = None ->
  (check_queue (Driver.identity self) (message_registry w) = false ->
   exists w',
     DriverRecv.backend_recv truthy self w = (Raise (AttributeError "msg_id"), w') /\
     message_registry w' = message_registry w) /\
  (check_queue (Driver.identity self) (job_registry w) = false ->
   exists w',
     DriverRecv.job_recv truthy self w = (Raise (AttributeError "msg_id"), w') /\
     job_registry w' = job_registry w).
Proof.
  intros Hc Hs Hnet. split; intros Hq.
  - destruct (get_message_delivered truthy c (Driver.identity self) w Hs Hnet)
      as (w' & Hget & Hp & _).
    rewrite on_instance_result in Hget. unfold message_registry in *.
    rewrite (get_from_queue_unchecked _ _ Hq) in Hget.
    exists w'. split.
    + unfold DriverRecv.backend_recv, Driver.client_method. rewrite Hc.
      unfold bind, ret. cbv beta iota. rewrite Hget. reflexivity.
    + by rewrite Hp, instance_on_instance, (get_from_queue_unchecked _ _ Hq).
  - destruct (get_job_delivered truthy c (Driver.identity self) w Hs Hnet)
      as (w' & Hget & Hp & _).
    rewrite on_instance_result in Hget. unfold job_registry in *.
    rewrite (get_from_queue_unchecked _ _ Hq) in Hget.
    exists w'. split.
    + unfold DriverRecv.job_recv, Driver.client_method. rewrite Hc.
      unfold bind, ret. cbv beta iota. rewrite Hget. reflexivity.
    + by rewrite Hp, instance_on_instance, (get_from_queue_unchecked _ _ Hq).
Qed.

Lemma recv_without_data_raises_witness :
  exists w',
    DriverRecv.backend_recv message_truth agent_driver (quiet_world sample_uuids [])
    = (Raise (AttributeError "msg_id"), w') /\
    message_registry w' = message_registry (quiet_world sample_uuids []).
Proof.
  refine (proj1 (recv_without_data_raises message_truth agent_driver
    (MessageServiceClient.connected "127.0.0.1" 5558 false)
    (quiet_world sample_uuids []) _ _ _) _).
  - reflexivity.
  - eexists. reflexivity.
  - reflexivity.
  - reflexivity.
Defined.

(** From an agent to the coordinator: a [backend_send] that names neither
    target nor identity is received by the server-mode driver's
    [backend_recv] as the list of the sender's identity followed by [msg_id],
    [control], [command], [data], [info], [stderr] and [stdout], where a field
    that was not given reads as the empty string and an empty [data] reads as
    the text of an empty JSON object; the same for [job_send] and
    [job_recv]. *)
Theorem send_then_recv (truthy : MessageData -> bool) (agent server : Driver.t)
    (ca cs : MessageServiceClient.t) (kwargs : gmap string (option string))
    (w : World) :
  let field (k : string) := default "" (default None (kwargs !! k)) in
  let envelope :=
    new_MessageData (Some (Driver.identity agent)) (default None (kwargs !! "msg_id"))
      (default None (kwargs !! "control")) (default None (kwargs !! "command"))
      (default None (kwargs !! "data")) (default None (kwargs !! "info"))
      (default None (kwargs !! "stderr")) (default None (kwargs !! "stdout")) in
  let received :=
    [Driver.identity agent; field "msg_id"; field "control"; field "command";
     DriverRecv.data_or_object (field "data"); field "info"; field "stderr";
     field "stdout"] in
  Driver._client agent = Some ca -> is_Some (MessageServiceClient.stub ca) ->
  Driver._client server = Some cs -> is_Some (MessageServiceClient.stub cs) ->
  Driver.mode server = Some "server" ->
  Driver.identity server = "DIRECTORD_SERVER" ->
  kwargs !! "target" = None -> kwargs !! "identity" = None ->
  hd None (w_net w) = None -> hd None (tl (w_net w)) = None ->
  truthy envelope = true ->
  (queue_contents (message_registry w) "DIRECTORD_SERVER" = [] ->
   exists w1 w2,
     Driver.backend_send agent kwargs w = (Return true, w1) /\
     DriverRecv.backend_recv truthy server w1 = (Return received, w2)) /\
  (queue_contents (job_registry w) "DIRECTORD_SERVER" = [] ->
   exists w1 w2,
     Driver.job_send agent kwargs w = (Return true, w1) /\
     DriverRecv.job_recv truthy server w1 = (Return received, w2)).
Proof.
  intros field envelope received Hca Hsa Hcs Hss Hmode Hid Ht Hi Hnet Hnet2 Htrue.
  split; intros Hq.
  - destruct (backend_send_delivered agent ca kwargs w Hca Hsa Hnet)
      as (w1 & Hsend & Hp1 & Hn1).
    unfold Driver.kwargs_get_default, Driver.kwargs_get in Hp1.
    rewrite Ht, Hi in Hp1. cbn [default] in Hp1. fold envelope in Hp1.
    rewrite <- Hn1 in Hnet2.
    destruct (get_message_delivered truthy cs "DIRECTORD_SERVER" w1 Hss Hnet2)
      as (w2 & Hget & _).
    assert (Ha : queue_contents (instance MessageQueue (w_proc w1)) "DIRECTORD_SERVER"
                 = [envelope]).
    { rewrite Hp1, instance_on_instance. cbn [snd].
      unfold Driver._server_identity. rewrite add_queue_contents.
      unfold message_registry in Hq. by rewrite Hq. }
    rewrite on_instance_result, (get_from_queue_cons _ _ envelope [] Ha) in Hget.
    cbn [fst py_truth] in Hget. rewrite Htrue in Hget.
    exists w1, w2. split; [exact Hsend|].
    unfold DriverRecv.backend_recv, Driver.client_method. rewrite Hcs, Hid.
    unfold bind, ret. cbv beta iota. rewrite Hget.
    unfold DriverRecv.unpack, DriverRecv.is_server. rewrite Hmode. reflexivity.
  - destruct (job_send_delivered agent ca kwargs w Hca Hsa Hnet)
      as (w1 & Hsend & Hp1 & _).
    unfold Driver.kwargs_get_default, Driver.kwargs_get in Hp1.
    rewrite Ht, Hi in Hp1. cbn [default] in Hp1. fold envelope in Hp1.
    assert (Hn1 : hd None (w_net w1) = None).
    { destruct (put_job_delivered_net ca (Some "DIRECTORD_SERVER")
        (Some (Driver.identity agent)) (default None (kwargs !! "msg_id"))
        (default None (kwargs !! "control")) (default None (kwargs !! "command"))
        (default None (kwargs !! "data")) (default None (kwargs !! "info"))
        (default None (kwargs !! "stderr")) (default None (kwargs !! "stdout"))
        w Hsa Hnet) as (w1' & Hput & _ & Hn).
      revert Hsend. unfold Driver.job_send, Driver.client_method.
      rewrite Hca. unfold Driver.kwargs_get_default, Driver.kwargs_get.
      rewrite Ht, Hi. cbn [default]. unfold Driver._server_identity.
      unfold bind, try_except, ret. cbv beta iota. rewrite Hput.
      intros Heq. inversion Heq. subst w1'. by rewrite Hn. }
    destruct (get_job_delivered truthy cs "DIRECTORD_SERVER" w1 Hss Hn1)
      as (w2 & Hget & _).
    assert (Ha : queue_contents (instance JobQueue (w_proc w1)) "DIRECTORD_SERVER"
                 = [envelope]).
    { rewrite Hp1, instance_on_instance. cbn [snd].
      unfold Driver._server_identity. rewrite add_queue_contents.
      unfold job_registry in Hq. by rewrite Hq. }
    rewrite on_instance_result, (get_from_queue_cons _ _ envelope [] Ha) in Hget.
    cbn [fst py_truth] in Hget. rewrite Htrue in Hget.
    exists w1, w2. split; [exact Hsend|].
    unfold DriverRecv.job_recv, Driver.client_method. rewrite Hcs, Hid.
    unfold bind, ret. cbv beta iota. rewrite Hget.
    unfold DriverRecv.unpack, DriverRecv.is_server. rewrite Hmode. reflexivity.
Qed.

Lemma send_then_recv_witness :
  exists w1 w2,
    Driver.backend_send agent_driver
      (<["msg_id" := Some "123"]> (<["command" := Some "run"]> ∅))
      (quiet_world sample_uuids []) = (Return true, w1) /\
    DriverRecv.backend_recv message_truth server_driver w1
    = (Return ["agent-1"; "123"; ""; "run"; "{}"; ""; ""; ""], w2).
Proof.
  refine (proj1 (send_then_recv message_truth agent_driver server_driver
    (MessageServiceClient.connected "127.0.0.1" 5558 false)
    (MessageServiceClient.connected "127.0.0.1" 5558 false)
    (<["msg_id" := Some "123"]> (<["command" := Some "run"]> ∅))
    (quiet_world sample_uuids []) _ _ _ _ _ _ _ _ _ _ _) _);
    try reflexivity; eexists; reflexivity.
Defined.

(** ** The driver: polling *)

Lemma message_check_failed (c : MessageServiceClient.t) (t : string)
    (err : RpcStatus) (w : World) :
  is_Some (MessageServiceClient.stub c) ->
  hd None (w_net w) = Some err ->
  MessageServiceClient.message_check c t w
  = (Return false,
     set_log (w_log w ++ rpc_error_records "message_check" err) (pop_net w)).
Proof.
  intros [s Hs] Hnet.
  unfold MessageServiceClient.message_check, MessageServiceClient.require_stub.
  rewrite Hs. unfold bind, ret, try_except, raise. cbv beta iota.
  rewrite rpc_failed with (err := err) by done. cbv beta iota.
  by rewrite log_rpc_error_run.
Qed.

Lemma job_check_failed (c : MessageServiceClient.t) (t : string)
    (err : RpcStatus) (w : World) :
  is_Some (MessageServiceClient.stub c) ->
  hd None (w_net w) = Some err ->
  MessageServiceClient.job_check c t w
  = (Return false,
     set_log (w_log w ++ rpc_error_records "job_check" err) (pop_net w)).
Proof.
  intros [s Hs] Hnet.
  unfold MessageServiceClient.job_check, MessageServiceClient.require_stub.
  rewrite Hs. unfold bind, ret, try_except, raise. cbv beta iota.
  rewrite rpc_failed with (err := err) by done. cbv beta iota.
  by rewrite log_rpc_error_run.
Qed.

(** The sleeping half of a poll touches neither the log nor the server. *)
Lemma poll_sleep_frame (self : Driver.t) (interval constant : PyNumber)
    (w1 : World) :
  w_log (snd (Driver.poll_sleep self interval constant w1)) = w_log w1 /\
  w_proc (snd (Driver.poll_sleep self interval constant w1)) = w_proc w1.
Proof.
  unfold Driver.poll_sleep.
  destruct (Driver.poll_base interval constant) as [base|e]; [|done].
  unfold randrange, sleep. cbv beta iota.
  destruct (sleep_error _); done.
Qed.

(** Polling a server that cannot be reached: the client's check absorbs the
    transport error, so [backend_check] and [job_check] log the error and go
    on exactly as for an empty queue, to the one sleep and the answer
    [False], the server untouched.  Polling through a closed client raises
    "Job request after close" at once, without a sleep. *)
Theorem poll_without_server (self : Driver.t) (c : MessageServiceClient.t)
    (interval constant : PyNumber) (w : World) :
  Driver._client self = Some c ->
  (forall err : RpcStatus,
      is_Some (MessageServiceClient.stub c) ->
      hd None (w_net w) = Some err ->
      (let result := Driver.backend_check self interval constant w in
       polled self interval constant false
         (set_log (w_log w ++ rpc_error_records "message_check" err) (pop_net w))
         result /\
       w_log (snd result) = w_log w ++ rpc_error_records "message_check" err /\
       w_proc (snd result) = w_proc w) /\
      (let result := Driver.job_check self interval constant w in
       polled self interval constant false
         (set_log (w_log w ++ rpc_error_records "job_check" err) (pop_net w))
         result /\
       w_log (snd result) = w_log w ++ rpc_error_records "job_check" err /\
       w_proc (snd result) = w_proc w)) /\
  (MessageServiceClient.stub c = None ->
   Driver.backend_check self interval constant w
   = ((Raise (Exception "Job request after close"), self), w) /\
   Driver.job_check self interval constant w
   = ((Raise (Exception "Job request after close"), self), w)).
Proof.
  intros Hc. split.
  - intros err Hs Hnet.
    unfold Driver.backend_check, Driver.job_check, Driver.client_method.
    rewrite Hc. unfold bind, ret. cbv beta iota.
    rewrite message_check_failed with (err := err) by done.
    rewrite job_check_failed with (err := err) by done.
    cbv beta iota zeta.
    split; (split; [apply poll_sleep_polled|]);
      match goal with
      | |- context [Driver.poll_sleep self interval constant ?w1] =>
          destruct (poll_sleep_frame self interval constant w1) as [Hl Hp];
          rewrite Hl, Hp; done
      end.
  - intros Hs.
    unfold Driver.backend_check, Driver.job_check, Driver.client_method.
    rewrite Hc. unfold bind, ret. cbv beta iota.
    unfold MessageServiceClient.message_check, MessageServiceClient.job_check,
      MessageServiceClient.require_stub, bind.
    rewrite Hs. split; reflexivity.
Qed.

Lemma poll_without_server_witness :
  let w := failing_world sample_uuids [1234%Z] unavailable in
  let result := Driver.backend_check agent_driver (PyInt 1) (PyInt 1000) w in
  polled agent_driver (PyInt 1) (PyInt 1000) false
    (set_log (rpc_error_records "message_check" unavailable) (pop_net w)) result /\
  w_log (snd result) = rpc_error_records "message_check" unavailable /\
  w_proc (snd result) = fresh_process.
Proof.
  refine (proj1 (proj1 (poll_without_server agent_driver
    (MessageServiceClient.connected "127.0.0.1" 5558 false) (PyInt 1) (PyInt 1000)
    (failing_world sample_uuids [1234%Z] unavailable) _) unavailable _ _)).
  - reflexivity.
  - eexists. reflexivity.
  - reflexivity.
Defined.

(** ** Options and lifecycle *)

(** [--grpc-ssl] is false only for the empty text: given on the command line
    it is true for every non-empty value, the text [False] included, and
    left out it is true unless [DIRECTORD_GRPC_SSL] is set to the empty
    string; with the variable unset the default is true. *)
Theorem grpc_ssl_false_only_when_empty (environ : gmap string string)
    (given : option string) :
  (grpc_ssl environ given = false <->
   given = Some "" \/
   (given = None /\ environ !! "DIRECTORD_GRPC_SSL" = Some "")) /\
  grpc_ssl environ (Some "False") = true /\
  grpc_ssl (delete "DIRECTORD_GRPC_SSL" environ) None = true.
Proof.
  split; [|split].
  - unfold grpc_ssl, grpc_ssl_default, getenv, bool_of_str.
    destruct given as [text|].
    + rewrite negb_false_iff, bool_decide_eq_true. split.
      * intros ->. by left.
      * intros [H|[H _]]; [by inversion H | discriminate H].
    + rewrite negb_false_iff, bool_decide_eq_true.
      destruct (environ !! "DIRECTORD_GRPC_SSL") as [v|]; simpl; split.
      * intros ->. by right.
      * intros [H|[_ H]]; [discriminate H | by inversion H].
      * discriminate.
      * intros [H|[_ H]]; discriminate H.
  - reflexivity.
  - unfold grpc_ssl, grpc_ssl_default, getenv. by rewrite lookup_delete_eq.
Qed.

Section LifecycleFacts.
Context (new_client : string -> Z -> bool -> M MessageServiceClient.t)
        (connect : MessageServiceClient.t -> M MessageServiceClient.t).

(** Initialising a client-mode driver connects once: when the constructor
    returns a client, [backend_init] (and [job_init]) stores it and logs that
    the client started; any further init, whatever a new connection attempt
    would do, makes none, keeps the client and only logs that the backend is
    already configured. *)
Theorem init_connects_once (self : Lifecycle.t) (c : MessageServiceClient.t)
    (w w1 : World) :
  DriverRecv.is_server (Lifecycle.driver self) = false ->
  Driver._client (Lifecycle.driver self) = None ->
  new_client (Lifecycle.server_address self) (Lifecycle.grpc_port self)
    (Lifecycle.args_grpc_ssl self) w = (Return c, w1) ->
  let self1 := Lifecycle.set_client (Some c) self in
  let w2 :=
    set_log (w_log w1
             ++ [mkLog INFO "grpc client to %s:%s started"
                   [AStr (Lifecycle.server_address self);
                    AStr (pretty (Lifecycle.grpc_port self))]]) w1 in
  let again :=
    set_log (w_log w2 ++ [mkLog DEBUG "Backend already configured, ignoring bind" []])
      w2 in
  Lifecycle.backend_init new_client connect self w = ((Return tt, self1), w2) /\
  Lifecycle.job_init new_client connect self w = ((Return tt, self1), w2) /\
  (forall (new_client' : string -> Z -> bool -> M MessageServiceClient.t)
          (connect' : MessageServiceClient.t -> M MessageServiceClient.t),
      Lifecycle.backend_init new_client' connect' self1 w2 = ((Return tt, self1), again) /\
      Lifecycle.job_init new_client' connect' self1 w2 = ((Return tt, self1), again)).
Proof.
  intros Hmode Hc Hnew self1 w2 again.
  unfold Lifecycle.backend_init, Lifecycle.job_init.
  rewrite Hmode. split; [|split].
  - unfold Lifecycle._backend_connection. rewrite Hc.
    unfold Lifecycle.lbind, Lifecycle.lift. rewrite Hnew. reflexivity.
  - unfold Lifecycle._backend_connection. rewrite Hc.
    unfold Lifecycle.lbind, Lifecycle.lift. rewrite Hnew. reflexivity.
  - intros new_client' connect'.
    assert (Hmode1 : DriverRecv.is_server (Lifecycle.driver self1) = false)
      by exact Hmode.
    rewrite Hmode1. split; reflexivity.
Qed.

(** Binding a server-mode driver starts one server and one client: the first
    [backend_init] records a server listening on the bind address and port,
    logs it, and connects the local client; a further init finds the server
    and does nothing but log that the backend is already configured. *)
Theorem bind_starts_once (self : Lifecycle.t) (c : MessageServiceClient.t)
    (w w1 : World) :
  let started :=
    set_log (w_log w
             ++ [mkLog INFO "grpc backend started at %s:%s"
                   [AStr (Lifecycle.bind_address self);
                    AStr (pretty (Lifecycle.grpc_port self))]]) w in
  DriverRecv.is_server (Lifecycle.driver self) = true ->
  Lifecycle._server self = None ->
  Driver._client (Lifecycle.driver self) = None ->
  new_client (Lifecycle.server_address self) (Lifecycle.grpc_port self)
    (Lifecycle.args_grpc_ssl self) started = (Return c, w1) ->
  exists (self1 : Lifecycle.t) (w2 : World),
    Lifecycle.backend_init new_client connect self w = ((Return tt, self1), w2) /\
    Lifecycle._server self1
    = Some {| Lifecycle.listening :=
                Lifecycle.bind_address self +:+ ":" +:+ pretty (Lifecycle.grpc_port self);
              Lifecycle.max_workers := Lifecycle.args_grpc_server_workers self |} /\
    Driver._client (Lifecycle.driver self1) = Some c /\
    (forall (new_client' : string -> Z -> bool -> M MessageServiceClient.t)
          (connect' : MessageServiceClient.t -> M MessageServiceClient.t),
        Lifecycle.backend_init new_client' connect' self1 w2
        = ((Return tt, self1),
           set_log (w_log w2
                    ++ [mkLog DEBUG "Backend already configured, ignoring bind" []])
             w2)).
Proof.
  intros started Hmode Hsrv Hc Hnew.
  eexists _, _. split; [|split; [|split]].
  - unfold Lifecycle.backend_init. rewrite Hmode.
    unfold Lifecycle._backend_bind. rewrite Hsrv.
    unfold Lifecycle.lbind at 1. unfold Lifecycle.assign at 1. cbv beta iota.
    unfold Lifecycle.lbind at 1. unfold Lifecycle.lift at 1.
    unfold log at 1. cbv beta iota.
    unfold Lifecycle._backend_connection. cbn [Lifecycle.driver Lifecycle.set_server].
    rewrite Hc.
    unfold Lifecycle.lbind, Lifecycle.lift.
    cbn [Lifecycle.server_address Lifecycle.grpc_port Lifecycle.args_grpc_ssl
         Lifecycle.set_server].
    unfold started, set_log in Hnew. rewrite Hnew. reflexivity.
  - reflexivity.
  - reflexivity.
  - intros new_client' connect'. unfold Lifecycle.backend_init.
    cbn [Lifecycle.driver Lifecycle.set_client Lifecycle.set_server].
    unfold DriverRecv.is_server in *. cbn [Driver.mode]. rewrite Hmode.
    reflexivity.
Qed.

End LifecycleFacts.

(** Closing: [backend_close] (and [job_close]) closes the client's channel,
    if the driver holds a client with an open channel, and forgets both the
    server and the client; nothing is logged and the queues are untouched.  A
    second close changes nothing, a send on the closed driver raises
    [AttributeError], and a later init of a client-mode driver connects
    anew. *)
Theorem close_resets (self : Lifecycle.t) (w : World) :
  let closed := Lifecycle.set_client None (Lifecycle.set_server None self) in
  let released :=
    match Driver._client (Lifecycle.driver self) with
    | Some c =>
        match MessageServiceClient.channel c with
        | Some ch => [ch]
        | None => []
        end
    | None => []
    end in
  exists w',
    Lifecycle.backend_close self w = ((Return tt, closed), w') /\
    Lifecycle.job_close self w = ((Return tt, closed), w') /\
    w_closed w' = w_closed w ++ released /\
    w_log w' = w_log w /\ w_proc w' = w_proc w /\
    Lifecycle.backend_close closed w' = ((Return tt, closed), w') /\
    (forall kwargs : gmap string (option string),
        fst (Driver.backend_send (Lifecycle.driver closed) kwargs w')
        = Raise (AttributeError "put_message")) /\
    (forall (new_client : string -> Z -> bool -> M MessageServiceClient.t)
            (connect : MessageServiceClient.t -> M MessageServiceClient.t)
            (c : MessageServiceClient.t) (w1 : World),
        DriverRecv.is_server (Lifecycle.driver self) = false ->
        new_client (Lifecycle.server_address self) (Lifecycle.grpc_port self)
          (Lifecycle.args_grpc_ssl self) w' = (Return c, w1) ->
        exists w2,
          Lifecycle.backend_init new_client connect closed w'
          = ((Return tt, Lifecycle.set_client (Some c) closed), w2)).
Proof.
  intros closed released. subst closed released.
  unfold Lifecycle.backend_close, Lifecycle.job_close, Lifecycle._backend_close.
  destruct (Driver._client (Lifecycle.driver self)) as [c|] eqn:Hc.
  - destruct (MessageServiceClient.channel c) as [ch|] eqn:Hch.
    + eexists. split; [|split; [|split; [|split; [|split; [|split; [|split]]]]]].
      * unfold Lifecycle.lbind, Lifecycle.lift, Lifecycle.assign, Lifecycle.skip,
          MessageServiceClient.close. rewrite Hch. reflexivity.
      * unfold Lifecycle.lbind, Lifecycle.lift, Lifecycle.assign, Lifecycle.skip,
          MessageServiceClient.close. rewrite Hch. reflexivity.
      * reflexivity.
      * reflexivity.
      * reflexivity.
      * reflexivity.
      * intros kwargs. reflexivity.
      * intros new_client connect c' w1 Hmode Hnew.
        unfold Lifecycle.backend_init.
        change (DriverRecv.is_server
                  (Lifecycle.driver (Lifecycle.set_client None (Lifecycle.set_server None self))))
          with (DriverRecv.is_server (Lifecycle.driver self)).
        rewrite Hmode. unfold Lifecycle._backend_connection.
        cbn [Lifecycle.driver Lifecycle.set_client Driver._client].
        unfold Lifecycle.lbind, Lifecycle.lift.
        cbn [Lifecycle.server_address Lifecycle.grpc_port Lifecycle.args_grpc_ssl
             Lifecycle.set_client Lifecycle.set_server] in *.
        rewrite Hnew. eexists. reflexivity.
    + eexists. split; [|split; [|split; [|split; [|split; [|split; [|split]]]]]].
      * unfold Lifecycle.lbind, Lifecycle.lift, Lifecycle.assign, Lifecycle.skip,
          MessageServiceClient.close. rewrite Hch. reflexivity.
      * unfold Lifecycle.lbind, Lifecycle.lift, Lifecycle.assign, Lifecycle.skip,
          MessageServiceClient.close. rewrite Hch. reflexivity.
      * by rewrite app_nil_r.
      * reflexivity.
      * reflexivity.
      * reflexivity.
      * intros kwargs. reflexivity.
      * intros new_client connect c' w1 Hmode Hnew.
        unfold Lifecycle.backend_init.
        change (DriverRecv.is_server
                  (Lifecycle.driver (Lifecycle.set_client None (Lifecycle.set_server None self))))
          with (DriverRecv.is_server (Lifecycle.driver self)).
        rewrite Hmode. unfold Lifecycle._backend_connection.
        cbn [Lifecycle.driver Lifecycle.set_client Driver._client].
        unfold Lifecycle.lbind, Lifecycle.lift.
        cbn [Lifecycle.server_address Lifecycle.grpc_port Lifecycle.args_grpc_ssl
             Lifecycle.set_client Lifecycle.set_server] in *.
        rewrite Hnew. eexists. reflexivity.
  - exists w. split; [|split; [|split; [|split; [|split; [|split; [|split]]]]]];
      try reflexivity.
    + by rewrite app_nil_r.
    + intros new_client connect c' w1 Hmode Hnew.
      unfold Lifecycle.backend_init.
      change (DriverRecv.is_server
                (Lifecycle.driver (Lifecycle.set_client None (Lifecycle.set_server None self))))
        with (DriverRecv.is_server (Lifecycle.driver self)).
      rewrite Hmode. unfold Lifecycle._backend_connection.
      cbn [Lifecycle.driver Lifecycle.set_client Driver._client].
      unfold Lifecycle.lbind, Lifecycle.lift.
      cbn [Lifecycle.server_address Lifecycle.grpc_port Lifecycle.args_grpc_ssl
           Lifecycle.set_client Lifecycle.set_server] in *.
      rewrite Hnew. eexists. reflexivity.
Qed.

Lemma init_connects_once_witness :
  let c := MessageServiceClient.connected "127.0.0.1" 5558 false in
  let w := quiet_world sample_uuids [] in
  let self1 := Lifecycle.set_client (Some c) new_agent in
  exists w2 again,
    Lifecycle.backend_init ready_client ret new_agent w = ((Return tt, self1), w2) /\
    Lifecycle.backend_init ready_client ret self1 w2 = ((Return tt, self1), again).
Proof.
  intros c w self1.
  destruct (init_connects_once ready_client ret new_agent c w w
              eq_refl eq_refl eq_refl) as (H1 & _ & H2).
  eexists _, _. split; [exact H1|]. exact (proj1 (H2 ready_client ret)).
Defined.

Lemma bind_starts_once_witness :
  exists (self1 : Lifecycle.t) (w2 : World),
    Lifecycle.backend_init ready_client ret new_server (quiet_world sample_uuids [])
    = ((Return tt, self1), w2) /\
    Lifecycle._server self1
    = Some {| Lifecycle.listening := "0.0.0.0:5558"; Lifecycle.max_workers := 4 |} /\
    Driver._client (Lifecycle.driver self1)
    = Some (MessageServiceClient.connected "127.0.0.1" 5558 false).
Proof.
  destruct (bind_starts_once ready_client ret new_server
              (MessageServiceClient.connected "127.0.0.1" 5558 false)
              (quiet_world sample_uuids []) _ eq_refl eq_refl eq_refl eq_refl)
    as (self1 & w2 & H1 & H2 & H3 & _).
  exists self1, w2. split; [exact H1|]. split; [exact H2|exact H3].
Defined.

Lemma close_resets_witness :
  let self := Lifecycle.set_client
                (Some (MessageServiceClient.connected "127.0.0.1" 5558 false))
                new_agent in
  let closed := Lifecycle.set_client None (Lifecycle.set_server None self) in
  exists w',
    Lifecycle.backend_close self (quiet_world sample_uuids [])
    = ((Return tt, closed), w') /\
    w_closed w' = ["127.0.0.1:5558"] /\
    exists w2,
      Lifecycle.backend_init ready_client ret closed w'
      = ((Return tt, self), w2).
Proof.
  intros self closed.
  destruct (close_resets self (quiet_world sample_uuids []))
    as (w' & H1 & _ & H3 & _ & _ & _ & _ & H8).
  exists w'. split; [exact H1|]. split; [exact H3|].
  refine (H8 ready_client ret
            (MessageServiceClient.connected "127.0.0.1" 5558 false) w' eq_refl _).
  reflexivity.
Defined.
